(** * IP and location demo: a shallow embedding of [app.py], [lab_01.py]
      and [lab_01_ip_locate.py]

    The three Python files are thin glue around the operating system's
    socket layer and three HTTP services.  Everything the code computes
    itself is a reshaping of JSON values, so the embedding has three layers:

    - Python values as the code sees them after [json] decoding, with
      [dict.get], truthiness and [or];
    - the outside world (sockets, [requests.get]) as an environment of
      answers plus a trace of the calls made, threaded by a state and
      exception monad;
    - the functions of the three files, written in that monad line by
      line. *)

From Stdlib Require Import ZArith Floats.
From stdpp Require Import gmap strings list fin_maps pretty.

Set Warnings "-register-all".
Local Open Scope string_scope.
Local Open Scope list_scope.
Local Open Scope Z_scope.

(** ** Python values

    What [json.loads] yields, and what [jsonify] accepts: [None], [bool],
    [int], [float], [str], [list] and [dict] with [str] keys. *)

Inductive json : Type :=
  | JNull
  | JBool (b : bool)
  | JInt (z : Z)
  | JFloat (f : float)
  | JString (s : string)
  | JArray (l : list json)
  | JObject (m : gmap string json).

(** Instances of Python's [Exception] class, as raised by [socket],
    [requests] and attribute lookup; [exn_str e] is [str(e)]. *)
Record exn := Exn { exn_class : string; exn_str : string }.

Module Py.

(** [type(v).__name__] *)
Definition type_name (v : json) : string :=
  match v with
  | JNull => "NoneType"
  | JBool _ => "bool"
  | JInt _ => "int"
  | JFloat _ => "float"
  | JString _ => "str"
  | JArray _ => "list"
  | JObject _ => "dict"
  end.

(** [v is None] *)
Definition is_none (v : json) : bool :=
  match v with JNull => true | _ => false end.

(** [bool(v)]: [None], [False], zero of either number type, and the
    empty string, list and dict are falsy; a NaN is truthy. *)
Definition truthy (v : json) : bool :=
  match v with
  | JNull => false
  | JBool b => b
  | JInt z => negb (z =? 0)
  | JFloat f => negb (PrimFloat.eqb f 0%float)
  | JString s => negb (String.eqb s "")
  | JArray l => match l with [] => false | _ :: _ => true end
  | JObject m => match map_to_list m with [] => false | _ :: _ => true end
  end.

Definition is_dict (v : json) : bool :=
  match v with JObject _ => true | _ => false end.

(** [d.get(k)] and [d.get(k, dflt)] on a dict *)
Definition dict_get (d : gmap string json) (k : string) : json :=
  default JNull (d !! k).

Definition dict_get_default (d : gmap string json) (k : string) (dflt : json) : json :=
  default dflt (d !! k).

(** Looking up an attribute that the value's type does not have. *)
Definition AttributeError (v : json) (attr : string) : exn :=
  Exn "AttributeError"
      ("'" +:+ type_name v +:+ "' object has no attribute '" +:+ attr +:+ "'").

(** [v == s] for a string literal [s]: only the same string is equal. *)
Definition eq_str (v : json) (s : string) : bool :=
  match v with JString t => String.eqb t s | _ => false end.

(** [str(v)], which is also what an f-string puts in for [{v}].  The
    text of a float and of a list or dict (whose order of keys the
    embedding does not keep) is left to [repr_other]. *)
Definition str (repr_other : json → string) (v : json) : string :=
  match v with
  | JNull => "None"
  | JBool true => "True"
  | JBool false => "False"
  | JInt z => pretty z
  | JString s => s
  | _ => repr_other v
  end.

End Py.

(** ** The outside world *)

Inductive address_family := AF_INET | AF_INET6 | AF_UNIX.
Inductive socket_kind := SOCK_STREAM | SOCK_DGRAM.

(** The arguments of one [requests.get] call; [None] where the caller
    passes nothing. *)
Record http_request := HttpRequest {
  rq_url : string;
  rq_params : option (gmap string json);
  rq_headers : option (gmap string string);
  rq_timeout : option Z
}.

(** A [requests.Response]: [json_body] is what [r.json()] does on it. *)
Record http_response := HttpResponse {
  status_code : Z;
  reason : string;
  url : string;
  json_body : exn + json
}.

(** Calls that leave the process, in the order they are made. *)
Inductive event :=
  | EvSocket (family : address_family) (kind : socket_kind)
  | EvConnect (fd : nat) (host : string) (port : Z)
  | EvGetsockname (fd : nat)
  | EvClose (fd : nat)
  | EvHttpGet (rq : http_request).

(** How the operating system and the network answer each call: a raised
    exception on the left, the returned value on the right. *)
Record environment := Environment {
  os_socket : address_family → socket_kind → exn + nat;
  os_connect : nat → string * Z → exn + unit;
  os_getsockname : nat → exn + (string * Z);
  os_close : nat → exn + unit;
  net_get : http_request → exn + http_response
}.

Record world := World { env : environment; trace : list event }.

Definition record_event (ev : event) (w : world) : world :=
  {| env := env w; trace := trace w ++ [ev] |}.

(** ** The monad: state passing over [world] with Python exceptions *)

Inductive result (A : Type) :=
  | Ok (a : A)
  | Raise (e : exn).
Arguments Ok {A} a.
Arguments Raise {A} e.

Definition M (A : Type) : Type := world → result A * world.

#[global] Instance M_ret : MRet M := λ A a w, (Ok a, w).

#[global] Instance M_bind : MBind M := λ A B f m w,
  match m w with
  | (Ok a, w') => f a w'
  | (Raise e, w') => (Raise e, w')
  end.

Definition raise {A} (e : exn) : M A := λ w, (Raise e, w).

(** [try: body  except Exception as e: handler e] *)
Definition try_except {A} (body : M A) (handler : exn → M A) : M A := λ w,
  match body w with
  | (Ok a, w') => (Ok a, w')
  | (Raise e, w') => handler e w'
  end.

(** One call to the outside: it is recorded, then answered. *)
Definition call {A} (ev : event) (answer : environment → exn + A) : M A := λ w,
  (match answer (env w) with inl e => Raise e | inr a => Ok a end,
   record_event ev w).


(** ** Library calls used by the three files *)

Module socket.

(** [socket.socket(family, kind)] *)
Definition socket (family : address_family) (kind : socket_kind) : M nat :=
  call (EvSocket family kind) (λ E, os_socket E family kind).

(** [s.connect((host, port))] *)
Definition connect (s : nat) (addr : string * Z) : M unit :=
  call (EvConnect s addr.1 addr.2) (λ E, os_connect E s addr).

(** [s.getsockname()] *)
Definition getsockname (s : nat) : M (string * Z) :=
  call (EvGetsockname s) (λ E, os_getsockname E s).

(** [s.close()] *)
Definition close (s : nat) : M unit :=
  call (EvClose s) (λ E, os_close E s).

End socket.

Module requests.

(** [requests.get(url, params=.., headers=.., timeout=..)] *)
Definition get (u : string) (params : option (gmap string json))
    (headers : option (gmap string string)) (timeout : option Z) : M http_response :=
  let rq := HttpRequest u params headers timeout in
  call (EvHttpGet rq) (λ E, net_get E rq).

Definition is_client_error (code : Z) : bool := (400 <=? code) && (code <? 500).
Definition is_server_error (code : Z) : bool := (500 <=? code) && (code <? 600).
Definition is_http_error (code : Z) : bool := is_client_error code || is_server_error code.

Definition http_error_msg (r : http_response) : string :=
  if is_client_error (status_code r) then
    pretty (status_code r) +:+ " Client Error: " +:+ reason r +:+ " for url: " +:+ url r
  else if is_server_error (status_code r) then
    pretty (status_code r) +:+ " Server Error: " +:+ reason r +:+ " for url: " +:+ url r
  else "".

Definition HTTPError (r : http_response) : exn := Exn "HTTPError" (http_error_msg r).

(** [r.raise_for_status()], as the requests library has it: an
    [HTTPError] on a 4xx or 5xx status, with the message built above,
    and nothing otherwise. *)
Definition raise_for_status (r : http_response) : M unit :=
  if is_http_error (status_code r) then raise (HTTPError r) else mret tt.

(** [r.json()] *)
Definition json (r : http_response) : M json :=
  match json_body r with
  | inl e => raise e
  | inr v => mret v
  end.

End requests.

(** [v.get(k)] on an arbitrary decoded value: only a dict has the method. *)
Definition py_get (v : json) (k : string) : M json :=
  match v with
  | JObject d => mret (Py.dict_get d k)
  | _ => raise (Py.AttributeError v "get")
  end.

Definition py_get_default (v : json) (k : string) (dflt : json) : M json :=
  match v with
  | JObject d => mret (Py.dict_get_default d k dflt)
  | _ => raise (Py.AttributeError v "get")
  end.

(** [a or b]: [b] is evaluated only when [a] is falsy. *)
Definition py_or (a : json) (b : M json) : M json :=
  if Py.truthy a then mret a else b.

(** ** Flask responses *)

Record flask_response := FlaskResponse { resp_json : json; resp_status : Z }.

(** [jsonify(d)] answers 200 unless the view returns it with a status. *)
Definition jsonify (d : gmap string json) : flask_response :=
  {| resp_json := JObject d; resp_status := 200 |}.

(** [return response, code] *)
Definition with_status (r : flask_response) (code : Z) : flask_response :=
  {| resp_json := resp_json r; resp_status := code |}.

(** ** app.py *)

Module app.

(** Lines 80-89. *)
Definition get_local_ip : M string :=
  try_except
    (s ← socket.socket AF_INET SOCK_DGRAM;
     _ ← socket.connect s ("8.8.8.8", 80);
     name ← socket.getsockname s;
     let ip := name.1 in
     _ ← socket.close s;
     mret ip)
    (λ _, mret "N/A").

(** The one outbound call of [get_public_ip]. *)
Definition ipify_request : http_request :=
  HttpRequest "https://api.ipify.org?format=json" None None (Some 5).

(** Lines 91-97.  The result is whatever sits under ["ip"], a string in
    practice. *)
Definition get_public_ip : M json :=
  try_except
    (r ← requests.get "https://api.ipify.org?format=json" None None (Some 5);
     data ← requests.json r;
     py_get_default data "ip" (JString "N/A"))
    (λ _, mret (JString "N/A")).

Definition ipapi_url (ip : option string) : string :=
  match ip with
  | None => "https://ipapi.co/json/"
  | Some a => "https://ipapi.co/" +:+ a +:+ "/json/"
  end.

(** The one outbound call of [ip_geolocation], as [requests.get]
    receives it. *)
Definition ipapi_request (ip : option string) : http_request :=
  HttpRequest (ipapi_url ip) None None (Some 6).

(** Lines 99-119.  The dict literal is built key by key, in source
    order; each [or] evaluates its right operand only when needed. *)
Definition ip_geolocation (ip : option string) : M (gmap string json) :=
  try_except
    (let url := ipapi_url ip in
     r ← requests.get url None None (Some 6);
     data ← requests.json r;
     v_ip ← py_get data "ip";
     v_city ← py_get data "city";
     v_region ← py_get data "region";
     v_postal ← py_get data "postal";
     v_country ← py_get data "country_name";
     lat0 ← py_get data "latitude";
     v_latitude ← py_or lat0 (py_get data "lat");
     lon0 ← py_get data "longitude";
     v_longitude ← py_or lon0 (py_get data "lon");
     mret (<["ip" := v_ip]> (<["city" := v_city]> (<["region" := v_region]>
          (<["postal" := v_postal]> (<["country" := v_country]>
          (<["latitude" := v_latitude]> (<["longitude" := v_longitude]>
          (<["raw" := data]> ∅)))))))))
    (λ e, mret {[ "error" := JString (exn_str e) ]}).

Definition nominatim_url : string := "https://nominatim.openstreetmap.org/reverse".

Definition nominatim_params (lat lon : json) : gmap string json :=
  <["format" := JString "jsonv2"]> (<["lat" := lat]> (<["lon" := lon]>
  (<["addressdetails" := JInt 1]> (<["zoom" := JInt 18]> ∅)))).

Definition nominatim_headers : gmap string string :=
  {[ "User-Agent" := "IP-to-Address-Demo/1.0 (+youremail@example.com)" ]}.

(** The one outbound call of the handler, as [requests.get] receives it. *)
Definition nominatim_request (lat lon : json) : http_request :=
  HttpRequest nominatim_url (Some (nominatim_params lat lon))
              (Some nominatim_headers) (Some 10).

Definition reverse_ok_body (lat lon address address_details resp : json) : gmap string json :=
  <["latitude" := lat]> (<["longitude" := lon]> (<["display_name" := address]>
  (<["address_details" := address_details]> (<["raw" := resp]> ∅)))).

(** Lines 143-179; [body] is what [request.get_json()] returned. *)
Definition reverse_geocode (body : json) : M flask_response :=
  let data := body in
  lat ← py_get data "latitude";
  lon ← py_get data "longitude";
  if Py.is_none lat || Py.is_none lon then
    mret (with_status (jsonify {[ "error" := JString "latitude/longitude required" ]}) 400)
  else
    let params := nominatim_params lat lon in
    let headers := nominatim_headers in
    try_except
      (r ← requests.get nominatim_url (Some params) (Some headers) (Some 10);
       _ ← requests.raise_for_status r;
       resp ← requests.json r;
       address ← py_get resp "display_name";
       address_details ← py_get_default resp "address" (JObject ∅);
       mret (jsonify (reverse_ok_body lat lon address address_details resp)))
      (λ e, mret (with_status
                    (jsonify {[ "error" := JString ("reverse geocode failed: " +:+ exn_str e) ]})
                    500)).

(** What [index] hands to [ip_geolocation], lines 125:
    [public_ip if public_ip != "N/A" else None].  There [ip is None]
    selects the address-less URL and any other value is formatted into
    the URL. *)
Definition geolocation_argument (repr_other : json → string) (public_ip : json)
    : option string :=
  let arg := if negb (Py.eq_str public_ip "N/A") then public_ip else JNull in
  if Py.is_none arg then None else Some (Py.str repr_other arg).

Definition index_note : string :=
  "IP-based geolocation typically does NOT return a precise street/building address.".

(** Lines 121-137.  [render summary] stands for
    [render_template_string(<the page template>, summary=summary)]. *)
Definition index {page : Type} (repr_other : json → string)
    (render : gmap string json → page) : M page :=
  local_ip ← get_local_ip;
  public_ip ← get_public_ip;
  ip_geo ← ip_geolocation (geolocation_argument repr_other public_ip);
  let summary :=
    <["local_ip" := JString local_ip]> (<["public_ip" := public_ip]>
    (<["ip_geolocation" := JObject ip_geo]> (<["note" := JString index_note]> ∅))) in
  mret (render summary).

End app.

(** ** Running a script

    What a run of a script leaves behind: the lines it printed, the
    exception that ended it if one did, and the world. *)
Record script_outcome := ScriptOutcome {
  stdout : list string;
  uncaught : option exn;
  final : world
}.

(** ** lab_01.py *)

Module lab_01.

(** Lines 4-9. *)
Definition get_ip_address : M string :=
  s ← socket.socket AF_INET SOCK_DGRAM;
  _ ← socket.connect s ("8.8.8.8", 80);
  name ← socket.getsockname s;
  let ip := name.1 in
  _ ← socket.close s;
  mret ip.

(** The one outbound call of [get_physical_address]: no timeout. *)
Definition ipapi_request : http_request :=
  HttpRequest "https://ipapi.co/json/" None None None.

(** Lines 11-23. *)
Definition get_physical_address (repr_other : json → string) : M string :=
  response ← requests.get "https://ipapi.co/json/" None None None;
  data ← requests.json response;
  street ← py_get_default data "address" (JString "N/A");
  city ← py_get data "city";
  region ← py_get data "region";
  postal ← py_get data "postal";
  country ← py_get data "country_name";
  let str := Py.str repr_other in
  let address :=
    if negb (Py.eq_str street "N/A") then
      str street +:+ ", " +:+ str city +:+ ", " +:+ str region +:+ " "
        +:+ str postal +:+ ", " +:+ str country
    else
      str city +:+ ", " +:+ str region +:+ " " +:+ str postal +:+ ", " +:+ str country in
  mret address.

(** Lines 25-26, the body of the script: each [print] runs after its
    argument has been computed. *)
Definition main (repr_other : json → string) (w : world) : script_outcome :=
  match get_ip_address w with
  | (Raise e, w1) => ScriptOutcome [] (Some e) w1
  | (Ok ip, w1) =>
      let out1 := ["IP Address: " +:+ ip] in
      match get_physical_address repr_other w1 with
      | (Raise e, w2) => ScriptOutcome out1 (Some e) w2
      | (Ok address, w2) =>
          ScriptOutcome (out1 ++ ["Physical Address: " +:+ address]) None w2
      end
  end.

End lab_01.

(** ** lab_01_ip_locate.py *)

Module lab_01_ip_locate.

(** Lines 4-9. *)
Definition get_ip_address : M string :=
  s ← socket.socket AF_INET SOCK_DGRAM;
  _ ← socket.connect s ("8.8.8.8", 80);
  name ← socket.getsockname s;
  let ip := name.1 in
  _ ← socket.close s;
  mret ip.

(** The one outbound call of [get_physical_address]: no timeout. *)
Definition ipapi_request : http_request :=
  HttpRequest "https://ipapi.co/json/" None None None.

(** Lines 11-18. *)
Definition get_physical_address (repr_other : json → string) : M string :=
  response ← requests.get "https://ipapi.co/json/" None None None;
  data ← requests.json response;
  city ← py_get data "city";
  region ← py_get data "region";
  country ← py_get data "country_name";
  let str := Py.str repr_other in
  let address := str city +:+ ", " +:+ str region +:+ ", " +:+ str country in
  mret address.

(** Lines 20-21, the body of the script. *)
Definition main (repr_other : json → string) (w : world) : script_outcome :=
  match get_ip_address w with
  | (Raise e, w1) => ScriptOutcome [] (Some e) w1
  | (Ok ip, w1) =>
      let out1 := ["IP Address: " +:+ ip] in
      match get_physical_address repr_other w1 with
      | (Raise e, w2) => ScriptOutcome out1 (Some e) w2
      | (Ok address, w2) =>
          ScriptOutcome (out1 ++ ["Physical Address: " +:+ address]) None w2
      end
  end.

End lab_01_ip_locate.

(** ** How the outside world can answer

    The claims speak of an upstream call that succeeds or fails, and of
    socket operations that fail.  These predicates name the cases, in
    the order the code meets them, together with the exception that a
    failure raises. *)

(** The socket probe shared by [get_local_ip] and both [get_ip_address]:
    the first operation that raises, or the address [getsockname] gave. *)
Inductive probe (E : environment) : exn + string → Prop :=
  | probe_socket_fails e :
      os_socket E AF_INET SOCK_DGRAM = inl e →
      probe E (inl e)
  | probe_connect_fails fd e :
      os_socket E AF_INET SOCK_DGRAM = inr fd →
      os_connect E fd ("8.8.8.8", 80) = inl e →
      probe E (inl e)
  | probe_getsockname_fails fd e :
      os_socket E AF_INET SOCK_DGRAM = inr fd →
      os_connect E fd ("8.8.8.8", 80) = inr tt →
      os_getsockname E fd = inl e →
      probe E (inl e)
  | probe_close_fails fd name e :
      os_socket E AF_INET SOCK_DGRAM = inr fd →
      os_connect E fd ("8.8.8.8", 80) = inr tt →
      os_getsockname E fd = inr name →
      os_close E fd = inl e →
      probe E (inl e)
  | probe_done fd name :
      os_socket E AF_INET SOCK_DGRAM = inr fd →
      os_connect E fd ("8.8.8.8", 80) = inr tt →
      os_getsockname E fd = inr name →
      os_close E fd = inr tt →
      probe E (inr name.1).

(** The calls of a probe that runs to its end on the socket [fd]. *)
Definition probe_events (fd : nat) : list event :=
  [EvSocket AF_INET SOCK_DGRAM; EvConnect fd "8.8.8.8" 80; EvGetsockname fd; EvClose fd].

(** Failure of the reverse-geocoding call: no response at all (timeout,
    network failure), an HTTP error status, a body that does not decode,
    or a decoded body that is not a JSON object. *)
Inductive nominatim_failure : exn + http_response → exn → Prop :=
  | nominatim_no_response e :
      nominatim_failure (inl e) e
  | nominatim_http_status r :
      requests.is_http_error (status_code r) = true →
      nominatim_failure (inr r) (requests.HTTPError r)
  | nominatim_bad_json r e :
      requests.is_http_error (status_code r) = false →
      json_body r = inl e →
      nominatim_failure (inr r) e
  | nominatim_bad_shape r v :
      requests.is_http_error (status_code r) = false →
      json_body r = inr v →
      Py.is_dict v = false →
      nominatim_failure (inr r) (Py.AttributeError v "get").

(** Success of the reverse-geocoding call, with the decoded payload. *)
Definition nominatim_success (o : exn + http_response) (payload : gmap string json) : Prop :=
  ∃ r, o = inr r ∧ requests.is_http_error (status_code r) = false
       ∧ json_body r = inr (JObject payload).

(** Failure of the IP-geolocation call; the status code plays no part,
    [ip_geolocation] does not look at it. *)
Inductive ipapi_failure : exn + http_response → exn → Prop :=
  | ipapi_no_response e :
      ipapi_failure (inl e) e
  | ipapi_bad_json r e :
      json_body r = inl e →
      ipapi_failure (inr r) e
  | ipapi_bad_shape r v :
      json_body r = inr v →
      Py.is_dict v = false →
      ipapi_failure (inr r) (Py.AttributeError v "get").

Definition ipapi_success (o : exn + http_response) (payload : gmap string json) : Prop :=
  ∃ r, o = inr r ∧ json_body r = inr (JObject payload).

(** A field the request does not supply: the key is absent, or it is
    there with the value [null]. *)
Definition missing (d : gmap string json) (k : string) : Prop :=
  d !! k = None ∨ d !! k = Some JNull.

(** The keys of the IP-geolocation record other than ["raw"]. *)
Definition record_fields : list string :=
  ["ip"; "city"; "region"; "postal"; "country"; "latitude"; "longitude"].

(** Telling the two kinds of outbound call apart. *)
Definition is_socket_event (ev : event) : bool :=
  match ev with EvHttpGet _ => false | _ => true end.

(** ** Sample environments *)

Definition OSError (msg : string) : exn := Exn "OSError" msg.

(** A machine with no route: [socket.socket] works, [connect] fails. *)
Definition env_unreachable (o : exn + http_response) : environment :=
  {| os_socket := λ _ _, inr 3%nat;
     os_connect := λ _ _, inl (OSError "[Errno 101] Network is unreachable");
     os_getsockname := λ _, inr ("0.0.0.0", 0);
     os_close := λ _, inr tt;
     net_get := λ _, o |}.

(** A machine that cannot open sockets at all. *)
Definition env_no_socket (o : exn + http_response) : environment :=
  {| os_socket := λ _ _, inl (OSError "[Errno 24] Too many open files");
     os_connect := λ _ _, inr tt;
     os_getsockname := λ _, inr ("0.0.0.0", 0);
     os_close := λ _, inr tt;
     net_get := λ _, o |}.

(** A machine on a LAN; every HTTP request is answered by [o]. *)
Definition env_online (o : exn + http_response) : environment :=
  {| os_socket := λ _ _, inr 3%nat;
     os_connect := λ _ _, inr tt;
     os_getsockname := λ _, inr ("192.168.1.7", 54321);
     os_close := λ _, inr tt;
     net_get := λ _, o |}.

Definition start (E : environment) : world := {| env := E; trace := [] |}.

Definition http_ok (v : json) : exn + http_response :=
  inr (HttpResponse 200 "OK" "" (inr v)).

Definition ReadTimeout : exn :=
  Exn "ReadTimeout" "HTTPSConnectionPool(host='nominatim.openstreetmap.org', port=443): Read timed out. (read timeout=10)".

Definition ConnectionError : exn :=
  Exn "ConnectionError" "HTTPSConnectionPool(host='ipapi.co', port=443): Max retries exceeded".

Definition sample_coordinates : gmap string json :=
  <["latitude" := JFloat 33.5]> (<["longitude" := JFloat (-118.25)]> ∅).

Definition body_without_latitude : gmap string json :=
  {[ "longitude" := JFloat 12.5 ]}.

Definition body_zero_and_text : gmap string json :=
  <["latitude" := JInt 0]> (<["longitude" := JString "east"]> ∅).

Definition payload_lon_only : gmap string json :=
  {[ "lon" := JFloat 10 ]}.

Definition payload_zero_longitude : gmap string json :=
  <["longitude" := JFloat 0]> (<["lon" := JFloat 10]> ∅).

Definition payload_equator : gmap string json :=
  <["city" := JString "Kampala"]> (<["latitude" := JFloat 0]> (<["longitude" := JFloat 32.5]> ∅)).

(** A machine on a LAN whose HTTP answers depend on the URL asked. *)
Definition env_by_url (answer : string → exn + http_response) : environment :=
  {| os_socket := λ _ _, inr 3%nat;
     os_connect := λ _ _, inr tt;
     os_getsockname := λ _, inr ("192.168.1.7", 54321);
     os_close := λ _, inr tt;
     net_get := λ rq, answer (rq_url rq) |}.

(** The ipify service answers with an address, ipapi with a city. *)
Definition answer_both (u : string) : exn + http_response :=
  if String.eqb u "https://api.ipify.org?format=json"
  then http_ok (JObject {[ "ip" := JString "203.0.113.9" ]})
  else http_ok (JObject (<["city" := JString "Long Beach"]>
                         (<["country_name" := JString "United States"]> ∅))).

(** The ipify service is down, ipapi answers. *)
Definition answer_no_ipify (u : string) : exn + http_response :=
  if String.eqb u "https://api.ipify.org?format=json"
  then inl ConnectionError
  else http_ok (JObject (<["city" := JString "Long Beach"]>
                         (<["country_name" := JString "United States"]> ∅))).

(** A stand-in for the text of floats and containers. *)
Definition repr_placeholder (v : json) : string := "<" +:+ Py.type_name v +:+ ">".

Definition payload_full_address : gmap string json :=
  <["address" := JString "1250 Bellflower Blvd"]> (<["city" := JString "Long Beach"]>
  (<["region" := JString "California"]> (<["postal" := JString "90840"]>
  (<["country_name" := JString "United States"]> ∅)))).

Definition sample_address : gmap string json :=
  <["display_name" := JString "1250 Bellflower Blvd, Long Beach, CA 90840, United States"]>
  (<["address" := JObject (<["road" := JString "Bellflower Blvd"]> (<["city" := JString "Long Beach"]> ∅))]> ∅).


(** * Properties *)

(** ** The monad *)

Lemma run_bind {A B} (m : M A) (f : A → M B) (w : world) :
  (m ≫= f) w = match m w with
               | (Ok a, w') => f a w'
               | (Raise e, w') => (Raise e, w')
               end.
Proof. reflexivity. Qed.

Lemma run_call {A} ev (answer : environment → exn + A) (w : world) :
  call ev answer w =
  (match answer (env w) with inl e => Raise e | inr a => Ok a end, record_event ev w).
Proof. reflexivity. Qed.

Lemma env_record_event ev w : env (record_event ev w) = env w.
Proof. reflexivity. Qed.

(** ** The socket probe *)

Lemma probe_total E : ∃ o, probe E o.
Proof.
  destruct (os_socket E AF_INET SOCK_DGRAM) as [e|fd] eqn:Hs.
  { eexists. by apply probe_socket_fails. }
  destruct (os_connect E fd ("8.8.8.8", 80)) as [e|[]] eqn:Hc.
  { eexists. by eapply probe_connect_fails. }
  destruct (os_getsockname E fd) as [e|name] eqn:Hn.
  { eexists. by eapply probe_getsockname_fails. }
  destruct (os_close E fd) as [e|[]] eqn:Hx.
  { eexists. by eapply probe_close_fails. }
  eexists. by eapply probe_done.
Qed.

Lemma probe_deterministic E o1 o2 : probe E o1 → probe E o2 → o1 = o2.
Proof.
  intros H1 H2. destruct H1; destruct H2; congruence.
Qed.

Lemma run_ret {A} (a : A) (w : world) : (mret a : M A) w = (Ok a, w).
Proof. reflexivity. Qed.

Lemma run_raise {A} (e : exn) (w : world) : @raise A e w = (Raise e, w).
Proof. reflexivity. Qed.

Lemma run_try {A} (body : M A) (handler : exn → M A) (w : world) :
  try_except body handler w = match body w with
                              | (Ok a, w') => (Ok a, w')
                              | (Raise e, w') => handler e w'
                              end.
Proof. reflexivity. Qed.

Lemma run_or (a b : json) (w : world) :
  py_or a (mret b) w = (Ok (if Py.truthy a then a else b), w).
Proof. unfold py_or. destruct (Py.truthy a); reflexivity. Qed.

Create HintDb py_run discriminated.
#[local] Hint Unfold socket.socket socket.connect socket.getsockname socket.close
  requests.get requests.json requests.raise_for_status
  app.nominatim_request app.ipapi_request : py_run.

(** Runs a computation as far as the hypotheses on the environment
    decide it. *)
Ltac run :=
  autounfold with py_run in *;
  repeat first
    [ progress rewrite ?run_try, ?run_bind, ?run_call, ?run_or, ?run_ret, ?run_raise,
        ?env_record_event
    | progress cbn [fst snd py_get py_get_default]
    | match goal with H : ?l = _ |- context [?l] => rewrite H end ].

(** ** Python values *)

Lemma is_none_spec v : Py.is_none v = true ↔ v = JNull.
Proof. destruct v; simpl; split; congruence. Qed.

Lemma is_none_false v : Py.is_none v = false ↔ v ≠ JNull.
Proof. destruct v; simpl; split; congruence. Qed.

Lemma dict_get_Some d k v : d !! k = Some v → Py.dict_get d k = v.
Proof. unfold Py.dict_get. by intros ->. Qed.

Lemma dict_get_None d k : d !! k = None → Py.dict_get d k = JNull.
Proof. unfold Py.dict_get. by intros ->. Qed.

(** [d.get(k)] is [None] exactly when the key is absent or maps to
    [None]: the two ways a field is missing. *)
Lemma dict_get_null d k :
  Py.dict_get d k = JNull ↔ d !! k = None ∨ d !! k = Some JNull.
Proof.
  unfold Py.dict_get. destruct (d !! k) as [v|]; simpl; split.
  - intros ->. by right.
  - intros [?|?]; congruence.
  - by left.
  - done.
Qed.

(** A value that [d.get(k)] returns is [None] or sits in [d] under [k]. *)
Lemma dict_get_origin d k :
  Py.dict_get d k = JNull ∨ d !! k = Some (Py.dict_get d k).
Proof. unfold Py.dict_get. destruct (d !! k); simpl; auto. Qed.

(** ** The socket probe in the three functions *)

Lemma lab_01_get_ip_address_probe w o :
  probe (env w) o →
  (lab_01.get_ip_address w).1 = match o with inl e => Raise e | inr ip => Ok ip end.
Proof.
  intros H. unfold lab_01.get_ip_address. destruct H; run; reflexivity.
Qed.

Lemma lab_01_ip_locate_get_ip_address_probe w o :
  probe (env w) o →
  (lab_01_ip_locate.get_ip_address w).1 = match o with inl e => Raise e | inr ip => Ok ip end.
Proof.
  intros H. unfold lab_01_ip_locate.get_ip_address. destruct H; run; reflexivity.
Qed.

Lemma get_local_ip_probe w o :
  probe (env w) o →
  (app.get_local_ip w).1 = Ok (match o with inl _ => "N/A" | inr ip => ip end).
Proof.
  intros H. unfold app.get_local_ip. destruct H; run; reflexivity.
Qed.

(** A probe that succeeds makes the four socket calls, in order, and
    nothing else. *)
Lemma get_local_ip_trace w fd name :
  os_socket (env w) AF_INET SOCK_DGRAM = inr fd →
  os_connect (env w) fd ("8.8.8.8", 80) = inr tt →
  os_getsockname (env w) fd = inr name →
  os_close (env w) fd = inr tt →
  trace (app.get_local_ip w).2 = trace w ++ probe_events fd.
Proof.
  intros Hs Hc Hn Hx. unfold app.get_local_ip. run.
  unfold record_event, probe_events; simpl. by rewrite <- !app_assoc.
Qed.

(** ** The reverse-geocoding handler, case by case *)

Lemma nominatim_cases o :
  (∃ e, nominatim_failure o e) ∨ (∃ payload, nominatim_success o payload).
Proof.
  destruct o as [e|r].
  { left. eexists. constructor. }
  destruct (requests.is_http_error (status_code r)) eqn:Hs.
  { left. eexists. by constructor. }
  destruct (json_body r) as [e|v] eqn:Hj.
  { left. eexists. by apply nominatim_bad_json. }
  destruct (Py.is_dict v) eqn:Hd.
  - right. destruct v; try discriminate Hd. eexists. by exists r.
  - left. eexists. by eapply nominatim_bad_shape.
Qed.

Lemma nominatim_exclusive o e payload :
  nominatim_failure o e → nominatim_success o payload → False.
Proof.
  intros Hf (r & -> & Hs & Hj).
  inversion Hf as [ | | |? v ? Hv Hd]; subst; try congruence.
  rewrite Hj in Hv. injection Hv as <-. discriminate Hd.
Qed.

Lemma reverse_geocode_rejects m w :
  Py.is_none (Py.dict_get m "latitude") || Py.is_none (Py.dict_get m "longitude") = true →
  app.reverse_geocode (JObject m) w =
  (Ok (FlaskResponse (JObject {[ "error" := JString "latitude/longitude required" ]}) 400), w).
Proof.
  intros H. unfold app.reverse_geocode. run. reflexivity.
Qed.

Lemma reverse_geocode_fails m w o e :
  let lat := Py.dict_get m "latitude" in
  let lon := Py.dict_get m "longitude" in
  Py.is_none lat || Py.is_none lon = false →
  net_get (env w) (app.nominatim_request lat lon) = o →
  nominatim_failure o e →
  app.reverse_geocode (JObject m) w =
  (Ok (FlaskResponse
         (JObject {[ "error" := JString ("reverse geocode failed: " +:+ exn_str e) ]}) 500),
   record_event (EvHttpGet (app.nominatim_request lat lon)) w).
Proof.
  intros lat lon Hv Ho Hf. unfold app.reverse_geocode.
  destruct Hf as [e|r Hs|r e Hs Hj|r v Hs Hj Hd]; run; fold lat lon; run; try reflexivity.
  destruct v; try discriminate Hd; run; reflexivity.
Qed.

Lemma reverse_geocode_succeeds m w o payload :
  let lat := Py.dict_get m "latitude" in
  let lon := Py.dict_get m "longitude" in
  Py.is_none lat || Py.is_none lon = false →
  net_get (env w) (app.nominatim_request lat lon) = o →
  nominatim_success o payload →
  app.reverse_geocode (JObject m) w =
  (Ok (FlaskResponse
         (JObject (app.reverse_ok_body lat lon (Py.dict_get payload "display_name")
                     (Py.dict_get_default payload "address" (JObject ∅)) (JObject payload)))
         200),
   record_event (EvHttpGet (app.nominatim_request lat lon)) w).
Proof.
  intros lat lon Hv Ho (r & -> & Hs & Hj). unfold app.reverse_geocode.
  run; fold lat lon; run. reflexivity.
Qed.

(** A body that is valid JSON but not an object never reaches the
    validation: [data.get] raises outside the [try]. *)
Lemma reverse_geocode_not_a_dict v w :
  Py.is_dict v = false →
  app.reverse_geocode v w = (Raise (Py.AttributeError v "get"), w).
Proof.
  intros Hd. unfold app.reverse_geocode. destruct v; try discriminate Hd; reflexivity.
Qed.

Lemma validation_passes m lat lon :
  m !! "latitude" = Some lat → lat ≠ JNull →
  m !! "longitude" = Some lon → lon ≠ JNull →
  Py.is_none (Py.dict_get m "latitude") || Py.is_none (Py.dict_get m "longitude") = false.
Proof.
  intros Hlat ? Hlon ?.
  rewrite (dict_get_Some _ _ _ Hlat), (dict_get_Some _ _ _ Hlon).
  apply orb_false_iff. by rewrite !is_none_false.
Qed.

Lemma validation_fails m :
  Py.is_none (Py.dict_get m "latitude") || Py.is_none (Py.dict_get m "longitude") = true
  ↔ Py.dict_get m "latitude" = JNull ∨ Py.dict_get m "longitude" = JNull.
Proof. by rewrite orb_true_iff, !is_none_spec. Qed.

(** ** The IP-geolocation client, case by case *)

Lemma ipapi_cases o :
  (∃ e, ipapi_failure o e) ∨ (∃ payload, ipapi_success o payload).
Proof.
  destruct o as [e|r].
  { left. eexists. constructor. }
  destruct (json_body r) as [e|v] eqn:Hj.
  { left. eexists. by apply ipapi_bad_json. }
  destruct (Py.is_dict v) eqn:Hd.
  - right. destruct v; try discriminate Hd. eexists. by exists r.
  - left. eexists. by eapply ipapi_bad_shape.
Qed.

Lemma ip_geolocation_fails ip w o e :
  net_get (env w) (app.ipapi_request ip) = o →
  ipapi_failure o e →
  app.ip_geolocation ip w =
  (Ok {[ "error" := JString (exn_str e) ]}, record_event (EvHttpGet (app.ipapi_request ip)) w).
Proof.
  intros Ho Hf. unfold app.ip_geolocation.
  destruct Hf as [e|r e Hj|r v Hj Hd]; run; try reflexivity.
  destruct v; try discriminate Hd; run; reflexivity.
Qed.

(** What a successful call returns, key by key: [a or b] is [a] when
    [a] is truthy and [b] otherwise. *)
Lemma ip_geolocation_succeeds ip w o d :
  net_get (env w) (app.ipapi_request ip) = o →
  ipapi_success o d →
  ∃ rec,
    app.ip_geolocation ip w = (Ok rec, record_event (EvHttpGet (app.ipapi_request ip)) w)
    ∧ rec !! "ip" = Some (Py.dict_get d "ip")
    ∧ rec !! "city" = Some (Py.dict_get d "city")
    ∧ rec !! "region" = Some (Py.dict_get d "region")
    ∧ rec !! "postal" = Some (Py.dict_get d "postal")
    ∧ rec !! "country" = Some (Py.dict_get d "country_name")
    ∧ rec !! "latitude" =
        Some (if Py.truthy (Py.dict_get d "latitude")
              then Py.dict_get d "latitude" else Py.dict_get d "lat")
    ∧ rec !! "longitude" =
        Some (if Py.truthy (Py.dict_get d "longitude")
              then Py.dict_get d "longitude" else Py.dict_get d "lon")
    ∧ rec !! "raw" = Some (JObject d).
Proof.
  intros Ho (r & -> & Hj). unfold app.ip_geolocation.
  eexists. split.
  { run. reflexivity. }
  repeat split; by simplify_map_eq.
Qed.

(** The value of [d.get(k) or d.get(alt)] is [None] or a value of [d]. *)
Lemma or_origin d k alt :
  let v := if Py.truthy (Py.dict_get d k) then Py.dict_get d k else Py.dict_get d alt in
  v = JNull ∨ ∃ k', d !! k' = Some v.
Proof.
  simpl. destruct (Py.truthy (Py.dict_get d k)).
  - destruct (dict_get_origin d k); eauto.
  - destruct (dict_get_origin d alt); eauto.
Qed.

(** When the preferred key holds a truthy value, it wins. *)
Lemma ip_geolocation_prefers_longitude ip w d v :
  ipapi_success (net_get (env w) (app.ipapi_request ip)) d →
  d !! "longitude" = Some v → Py.truthy v = true →
  ∃ rec w', app.ip_geolocation ip w = (Ok rec, w') ∧ rec !! "longitude" = Some v.
Proof.
  intros Hs Hv Ht.
  destruct (ip_geolocation_succeeds ip w _ d eq_refl Hs) as (rec & Hrun & Hrec).
  exists rec, (record_event (EvHttpGet (app.ipapi_request ip)) w). split; [done|].
  destruct Hrec as (_ & _ & _ & _ & _ & _ & Hlon & _).
  by rewrite Hlon, (dict_get_Some _ _ _ Hv), Ht.
Qed.

(** When the preferred key is absent, the short one is used. *)
Lemma ip_geolocation_lon_only ip w d :
  ipapi_success (net_get (env w) (app.ipapi_request ip)) d →
  d !! "longitude" = None →
  ∃ rec w', app.ip_geolocation ip w = (Ok rec, w')
            ∧ rec !! "longitude" = Some (Py.dict_get d "lon").
Proof.
  intros Hs Hv.
  destruct (ip_geolocation_succeeds ip w _ d eq_refl Hs) as (rec & Hrun & Hrec).
  exists rec, (record_event (EvHttpGet (app.ipapi_request ip)) w). split; [done|].
  destruct Hrec as (_ & _ & _ & _ & _ & _ & Hlon & _).
  by rewrite Hlon, (dict_get_None _ _ Hv).
Qed.

(** * The claims *)

(** C1: for a POST /reverse request whose JSON body holds non-null
    latitude and longitude, when the upstream reverse-geocoding call
    succeeds the handler answers 200 with a body whose latitude and
    longitude are the values it was given, unchanged; the display name,
    the address details and the raw payload come from the upstream
    answer. *)
Theorem reverse_geocode_echoes_coordinates
    (m : gmap string json) (lat lon : json) (w : world) (payload : gmap string json) :
  m !! "latitude" = Some lat → lat ≠ JNull →
  m !! "longitude" = Some lon → lon ≠ JNull →
  nominatim_success (net_get (env w) (app.nominatim_request lat lon)) payload →
  ∃ body w',
    app.reverse_geocode (JObject m) w = (Ok (FlaskResponse (JObject body) 200), w')
    ∧ body !! "latitude" = Some lat
    ∧ body !! "longitude" = Some lon
    ∧ body !! "display_name" = Some (Py.dict_get payload "display_name")
    ∧ body !! "address_details" = Some (Py.dict_get_default payload "address" (JObject ∅))
    ∧ body !! "raw" = Some (JObject payload).
Proof.
  intros Hlat Hlat' Hlon Hlon' Hok.
  pose proof (validation_passes m lat lon Hlat Hlat' Hlon Hlon') as Hv.
  pose proof (reverse_geocode_succeeds m w _ payload Hv eq_refl) as Hrun.
  cbv zeta in Hrun.
  rewrite (dict_get_Some _ _ _ Hlat), (dict_get_Some _ _ _ Hlon) in Hrun.
  specialize (Hrun Hok).
  eexists _, _. split; [exact Hrun|].
  unfold app.reverse_ok_body. repeat split; by simplify_map_eq.
Qed.

(** C2: a POST /reverse request whose JSON body lacks latitude or
    longitude (key absent, or value null) is answered 400 with an error
    payload, and the world is left as it was: no call to the upstream
    service is made. *)
Theorem reverse_geocode_missing_field_400 (m : gmap string json) (w : world) :
  missing m "latitude" ∨ missing m "longitude" →
  ∃ msg,
    app.reverse_geocode (JObject m) w =
      (Ok (FlaskResponse (JObject {[ "error" := JString msg ]}) 400), w)
    ∧ msg ≠ "".
Proof.
  intros H. exists "latitude/longitude required". split; [|done].
  apply reverse_geocode_rejects, validation_fails.
  by rewrite !dict_get_null.
Qed.

(** C3: for a POST /reverse request with non-null latitude and longitude,
    when the upstream call fails (no response because of a timeout or a
    network failure, an HTTP error status, a body that does not decode,
    or one that is not a JSON object) the handler answers 500 with a body
    whose only key is ["error"], holding a non-empty message that ends
    with the text of the exception: no field of the success body
    appears. *)
Theorem reverse_geocode_upstream_failure_500
    (m : gmap string json) (lat lon : json) (w : world) (e : exn) :
  m !! "latitude" = Some lat → lat ≠ JNull →
  m !! "longitude" = Some lon → lon ≠ JNull →
  nominatim_failure (net_get (env w) (app.nominatim_request lat lon)) e →
  ∃ body msg w',
    app.reverse_geocode (JObject m) w = (Ok (FlaskResponse (JObject body) 500), w')
    ∧ body !! "error" = Some (JString msg)
    ∧ msg = "reverse geocode failed: " +:+ exn_str e
    ∧ msg ≠ ""
    ∧ dom body = {[ "error" ]}.
Proof.
  intros Hlat Hlat' Hlon Hlon' Hf.
  pose proof (validation_passes m lat lon Hlat Hlat' Hlon Hlon') as Hv.
  pose proof (reverse_geocode_fails m w _ e Hv eq_refl) as Hrun.
  cbv zeta in Hrun.
  rewrite (dict_get_Some _ _ _ Hlat), (dict_get_Some _ _ _ Hlon) in Hrun.
  specialize (Hrun Hf).
  eexists _, _, _. split; [exact Hrun|].
  split; [apply lookup_singleton_eq|].
  split; [reflexivity|].
  split; [discriminate|].
  apply dom_singleton_L.
Qed.

(** C4: whenever the IP-geolocation call fails (no response because of
    a network error or a timeout, a body that does not decode, or one
    that is not a JSON object), [ip_geolocation] returns a dict whose
    only key is ["error"], holding the exception's text; none of the
    record's keys is present. *)
Theorem ip_geolocation_failure_only_error (ip : option string) (w : world) (e : exn) :
  ipapi_failure (net_get (env w) (app.ipapi_request ip)) e →
  ∃ rec w',
    app.ip_geolocation ip w = (Ok rec, w')
    ∧ rec !! "error" = Some (JString (exn_str e))
    ∧ dom rec = {[ "error" ]}
    ∧ Forall (λ k, rec !! k = None) ("raw" :: record_fields).
Proof.
  intros Hf. eexists _, _. split; [exact (ip_geolocation_fails ip w _ e eq_refl Hf)|].
  split; [apply lookup_singleton_eq|].
  split; [apply dom_singleton_L|].
  unfold record_fields. repeat constructor; by apply lookup_singleton_ne.
Qed.

(** C5 does not hold on the code: with ["longitude"] present and equal
    to 0.0 beside ["lon"] equal to 10.0, the normalized longitude is
    10.0, the value of the short key, and with latitude 0.0 alone the
    normalized latitude is [None].  The preferred key's value is used
    only when it is truthy. *)
Theorem ip_geolocation_zero_longitude_replaced :
  ∃ rec1 w1 rec2 w2,
    payload_zero_longitude !! "longitude" = Some (JFloat 0)
    ∧ app.ip_geolocation None (start (env_online (http_ok (JObject payload_zero_longitude))))
      = (Ok rec1, w1)
    ∧ rec1 !! "longitude" = Some (JFloat 10)
    ∧ payload_equator !! "latitude" = Some (JFloat 0)
    ∧ app.ip_geolocation None (start (env_online (http_ok (JObject payload_equator))))
      = (Ok rec2, w2)
    ∧ rec2 !! "latitude" = Some JNull
    ∧ rec2 !! "longitude" = Some (JFloat 32.5).
Proof.
  eexists _, _, _, _. repeat split; vm_compute; reflexivity.
Qed.

(** C6: [get_local_ip] never raises.  It returns a string for every
    behaviour of the socket layer: the address [getsockname] reported
    when all four socket operations succeed, and ["N/A"] as soon as one
    of them raises, in particular when [socket.socket] or [connect]
    does. *)
Theorem get_local_ip_never_raises (w : world) :
  ∃ ip w',
    app.get_local_ip w = (Ok ip, w')
    ∧ (ip = "N/A" ∨ probe (env w) (inr ip))
    ∧ (∀ e, os_socket (env w) AF_INET SOCK_DGRAM = inl e → ip = "N/A")
    ∧ (∀ fd e, os_socket (env w) AF_INET SOCK_DGRAM = inr fd →
               os_connect (env w) fd ("8.8.8.8", 80) = inl e → ip = "N/A")
    ∧ (∀ e, probe (env w) (inl e) → ip = "N/A")
    ∧ (∀ a, probe (env w) (inr a) → ip = a).
Proof.
  destruct (probe_total (env w)) as [o Ho].
  pose proof (get_local_ip_probe w o Ho) as Hrun.
  destruct (app.get_local_ip w) as [res w'] eqn:Hw. simpl in Hrun. subst res.
  eexists _, _. split; [reflexivity|].
  assert (Hfail : ∀ e, probe (env w) (inl e) →
                       match o with inl _ => "N/A" | inr ip => ip end = "N/A").
  { intros e He. by rewrite (probe_deterministic _ _ _ Ho He). }
  split; [destruct o; auto|].
  split; [intros e He; apply (Hfail e); by apply probe_socket_fails|].
  split; [intros fd e Hs Hc; apply (Hfail e); by eapply probe_connect_fails|].
  split; [exact Hfail|].
  intros a Ha. by rewrite (probe_deterministic _ _ _ Ho Ha).
Qed.

(** C7: in the record of a successful [ip_geolocation] call, every one
    of ip, city, region, postal, country, latitude and longitude that the
    upstream payload does not supply is [None]; more generally each of
    these fields is [None] or a value taken from the payload, so no
    default string such as ["N/A"] is ever put in. *)
Theorem ip_geolocation_absent_fields_none
    (ip : option string) (w : world) (d : gmap string json) :
  ipapi_success (net_get (env w) (app.ipapi_request ip)) d →
  ∃ rec w',
    app.ip_geolocation ip w = (Ok rec, w')
    ∧ (d !! "ip" = None → rec !! "ip" = Some JNull)
    ∧ (d !! "city" = None → rec !! "city" = Some JNull)
    ∧ (d !! "region" = None → rec !! "region" = Some JNull)
    ∧ (d !! "postal" = None → rec !! "postal" = Some JNull)
    ∧ (d !! "country_name" = None → rec !! "country" = Some JNull)
    ∧ (d !! "latitude" = None → d !! "lat" = None → rec !! "latitude" = Some JNull)
    ∧ (d !! "longitude" = None → d !! "lon" = None → rec !! "longitude" = Some JNull)
    ∧ Forall (λ k, ∃ v, rec !! k = Some v ∧ (v = JNull ∨ ∃ k', d !! k' = Some v))
             record_fields.
Proof.
  intros Hs.
  destruct (ip_geolocation_succeeds ip w _ d eq_refl Hs)
    as (rec & Hrun & Hip & Hcity & Hregion & Hpostal & Hcountry & Hlat & Hlon & _).
  exists rec, (record_event (EvHttpGet (app.ipapi_request ip)) w).
  split; [exact Hrun|].
  repeat split.
  - intros H. by rewrite Hip, (dict_get_None _ _ H).
  - intros H. by rewrite Hcity, (dict_get_None _ _ H).
  - intros H. by rewrite Hregion, (dict_get_None _ _ H).
  - intros H. by rewrite Hpostal, (dict_get_None _ _ H).
  - intros H. by rewrite Hcountry, (dict_get_None _ _ H).
  - intros H1 H2. by rewrite Hlat, (dict_get_None _ _ H1), (dict_get_None _ _ H2).
  - intros H1 H2. by rewrite Hlon, (dict_get_None _ _ H1), (dict_get_None _ _ H2).
  - unfold record_fields. repeat constructor.
    + eexists. split; [exact Hip|]. destruct (dict_get_origin d "ip"); eauto.
    + eexists. split; [exact Hcity|]. destruct (dict_get_origin d "city"); eauto.
    + eexists. split; [exact Hregion|]. destruct (dict_get_origin d "region"); eauto.
    + eexists. split; [exact Hpostal|]. destruct (dict_get_origin d "postal"); eauto.
    + eexists. split; [exact Hcountry|]. destruct (dict_get_origin d "country_name"); eauto.
    + eexists. split; [exact Hlat|]. apply or_origin.
    + eexists. split; [exact Hlon|]. apply or_origin.
Qed.

(** C8: the validation of POST /reverse looks at nothing but [None]:
    the answer is 400 exactly when latitude or longitude is missing, and
    then nothing is sent upstream; any other pair of values, whatever
    their types (0, 0.0 and strings included), is forwarded as the
    ["lat"] and ["lon"] parameters of the one upstream call. *)
Theorem reverse_geocode_validation_iff_null (m : gmap string json) (w : world) :
  ∃ resp w',
    app.reverse_geocode (JObject m) w = (Ok resp, w')
    ∧ (resp_status resp = 400 ↔ missing m "latitude" ∨ missing m "longitude")
    ∧ (missing m "latitude" ∨ missing m "longitude" → trace w' = trace w)
    ∧ (¬ missing m "latitude" → ¬ missing m "longitude" →
       trace w' = trace w ++ [EvHttpGet (app.nominatim_request
                                           (Py.dict_get m "latitude")
                                           (Py.dict_get m "longitude"))]
       ∧ app.nominatim_params (Py.dict_get m "latitude") (Py.dict_get m "longitude")
           !! "lat" = Some (Py.dict_get m "latitude")
       ∧ app.nominatim_params (Py.dict_get m "latitude") (Py.dict_get m "longitude")
           !! "lon" = Some (Py.dict_get m "longitude")).
Proof.
  set (lat := Py.dict_get m "latitude"). set (lon := Py.dict_get m "longitude").
  assert (Hm : missing m "latitude" ∨ missing m "longitude" ↔ lat = JNull ∨ lon = JNull).
  { unfold missing. by rewrite <- !dict_get_null. }
  assert (Hparams : app.nominatim_params lat lon !! "lat" = Some lat
                    ∧ app.nominatim_params lat lon !! "lon" = Some lon).
  { unfold app.nominatim_params. split; by simplify_map_eq. }
  destruct (Py.is_none lat || Py.is_none lon) eqn:Hv.
  - pose proof Hv as Hnull. apply validation_fails in Hnull. fold lat lon in Hnull.
    eexists _, _. split; [exact (reverse_geocode_rejects m w Hv)|].
    rewrite Hm. simpl. split; [done|]. split; [done|]. tauto.
  - assert (Hnn : ¬ (lat = JNull ∨ lon = JNull)).
    { apply orb_false_iff in Hv. rewrite !is_none_false in Hv. tauto. }
    destruct (nominatim_cases (net_get (env w) (app.nominatim_request lat lon)))
      as [[e Hf]|[payload Hs]].
    + eexists _, _. split; [exact (reverse_geocode_fails m w _ e Hv eq_refl Hf)|].
      rewrite Hm. simpl. split; [split; [done|tauto]|]. split; [tauto|]. done.
    + eexists _, _. split; [exact (reverse_geocode_succeeds m w _ payload Hv eq_refl Hs)|].
      rewrite Hm. simpl. split; [split; [done|tauto]|]. split; [tauto|]. done.
Qed.

(** C9: the fallback in [ip_geolocation] goes by truthiness, not by
    presence of the key.  When ["longitude"] is present with a falsy
    value, such as 0, 0.0, [None] or the empty string, the normalized
    longitude is whatever ["lon"] holds, and [None] when ["lon"] is
    absent; the same for ["latitude"] and ["lat"]. *)
Theorem ip_geolocation_falsy_falls_back
    (ip : option string) (w : world) (d : gmap string json) :
  ipapi_success (net_get (env w) (app.ipapi_request ip)) d →
  ∃ rec w',
    app.ip_geolocation ip w = (Ok rec, w')
    ∧ (∀ v, d !! "longitude" = Some v → Py.truthy v = false →
            rec !! "longitude" = Some (default JNull (d !! "lon")))
    ∧ (∀ v, d !! "latitude" = Some v → Py.truthy v = false →
            rec !! "latitude" = Some (default JNull (d !! "lat")))
    ∧ Forall (λ v, Py.truthy v = false) [JInt 0; JFloat 0; JNull; JString ""].
Proof.
  intros Hs.
  destruct (ip_geolocation_succeeds ip w _ d eq_refl Hs)
    as (rec & Hrun & _ & _ & _ & _ & _ & Hlat & Hlon & _).
  exists rec, (record_event (EvHttpGet (app.ipapi_request ip)) w).
  split; [exact Hrun|].
  split; [|split].
  - intros v Hv Hf. by rewrite Hlon, (dict_get_Some _ _ _ Hv), Hf.
  - intros v Hv Hf. by rewrite Hlat, (dict_get_Some _ _ _ Hv), Hf.
  - repeat constructor.
Qed.

(** C10: the two [get_ip_address] functions, of [lab_01.py] and of
    [lab_01_ip_locate.py], are the same computation: from every world
    they make the same socket calls and end with the same result, which
    is the address [getsockname] reported when the four operations
    succeed and otherwise the exception of the first one that raised,
    passed on to the caller. *)
Theorem get_ip_address_scripts_equivalent (w : world) :
  lab_01.get_ip_address w = lab_01_ip_locate.get_ip_address w
  ∧ trace (lab_01.get_ip_address w).2 = trace (lab_01_ip_locate.get_ip_address w).2
  ∧ (∀ e, probe (env w) (inl e) →
          (lab_01.get_ip_address w).1 = Raise e
          ∧ (lab_01_ip_locate.get_ip_address w).1 = Raise e)
  ∧ (∀ ip, probe (env w) (inr ip) →
           (lab_01.get_ip_address w).1 = Ok ip
           ∧ (lab_01_ip_locate.get_ip_address w).1 = Ok ip).
Proof.
  split; [reflexivity|]. split; [reflexivity|]. split.
  - intros e He. split.
    + exact (lab_01_get_ip_address_probe w _ He).
    + exact (lab_01_ip_locate_get_ip_address_probe w _ He).
  - intros ip Hip. split.
    + exact (lab_01_get_ip_address_probe w _ Hip).
    + exact (lab_01_ip_locate_get_ip_address_probe w _ Hip).
Qed.

(** * The claims on concrete runs *)

(** The request of the browser page, answered by the upstream service. *)
Lemma reverse_geocode_echoes_coordinates_witness :
  ∃ body w',
    app.reverse_geocode (JObject sample_coordinates)
      (start (env_online (http_ok (JObject sample_address))))
    = (Ok (FlaskResponse (JObject body) 200), w')
    ∧ body !! "latitude" = Some (JFloat 33.5)
    ∧ body !! "longitude" = Some (JFloat (-118.25))
    ∧ body !! "display_name" = Some (Py.dict_get sample_address "display_name")
    ∧ body !! "address_details"
      = Some (Py.dict_get_default sample_address "address" (JObject ∅))
    ∧ body !! "raw" = Some (JObject sample_address).
Proof.
  apply (reverse_geocode_echoes_coordinates sample_coordinates
           (JFloat 33.5) (JFloat (-118.25))
           (start (env_online (http_ok (JObject sample_address)))) sample_address).
  - vm_compute; reflexivity.
  - discriminate.
  - vm_compute; reflexivity.
  - discriminate.
  - eexists. split; [reflexivity|]. split; reflexivity.
Defined.

(** The body [{"longitude": 12.5}], with an upstream that would time
    out if it were called. *)
Lemma reverse_geocode_missing_field_400_witness :
  missing body_without_latitude "latitude"
  ∧ ∃ msg,
      app.reverse_geocode (JObject body_without_latitude) (start (env_online (inl ReadTimeout)))
      = (Ok (FlaskResponse (JObject {[ "error" := JString msg ]}) 400),
         start (env_online (inl ReadTimeout)))
      ∧ msg ≠ "".
Proof.
  assert (H : missing body_without_latitude "latitude") by (left; vm_compute; reflexivity).
  split; [exact H|].
  apply (reverse_geocode_missing_field_400 body_without_latitude
           (start (env_online (inl ReadTimeout)))).
  left. exact H.
Defined.

(** A simulated timeout of the upstream call. *)
Lemma reverse_geocode_upstream_failure_500_witness :
  ∃ body msg w',
    app.reverse_geocode (JObject sample_coordinates) (start (env_online (inl ReadTimeout)))
    = (Ok (FlaskResponse (JObject body) 500), w')
    ∧ body !! "error" = Some (JString msg)
    ∧ msg = "reverse geocode failed: " +:+ exn_str ReadTimeout
    ∧ msg ≠ ""
    ∧ dom body = {[ "error" ]}.
Proof.
  apply (reverse_geocode_upstream_failure_500 sample_coordinates
           (JFloat 33.5) (JFloat (-118.25)) (start (env_online (inl ReadTimeout))) ReadTimeout).
  - vm_compute; reflexivity.
  - discriminate.
  - vm_compute; reflexivity.
  - discriminate.
  - exact (nominatim_no_response ReadTimeout).
Defined.

(** A simulated network failure of the IP-geolocation call. *)
Lemma ip_geolocation_failure_only_error_witness :
  ∃ rec w',
    app.ip_geolocation (Some "203.0.113.9") (start (env_online (inl ConnectionError)))
    = (Ok rec, w')
    ∧ rec !! "error" = Some (JString (exn_str ConnectionError))
    ∧ dom rec = {[ "error" ]}
    ∧ Forall (λ k, rec !! k = None) ("raw" :: record_fields).
Proof.
  apply (ip_geolocation_failure_only_error (Some "203.0.113.9")
           (start (env_online (inl ConnectionError))) ConnectionError).
  exact (ipapi_no_response ConnectionError).
Defined.

(** A machine that cannot create a socket. *)
Lemma get_local_ip_never_raises_witness :
  os_socket (env_no_socket (inl ConnectionError)) AF_INET SOCK_DGRAM
  = inl (OSError "[Errno 24] Too many open files")
  ∧ ∃ ip w',
      app.get_local_ip (start (env_no_socket (inl ConnectionError))) = (Ok ip, w')
      ∧ ip = "N/A".
Proof.
  split; [reflexivity|].
  destruct (get_local_ip_never_raises (start (env_no_socket (inl ConnectionError))))
    as (ip & w' & Hrun & _ & Hsock & _).
  exists ip, w'. split; [exact Hrun|].
  exact (Hsock (OSError "[Errno 24] Too many open files") eq_refl).
Defined.

(** The upstream payload [{"lon": 10.0}]: every field but longitude is
    [None]. *)
Lemma ip_geolocation_absent_fields_none_witness :
  ∃ rec w',
    app.ip_geolocation None (start (env_online (http_ok (JObject payload_lon_only))))
    = (Ok rec, w')
    ∧ rec !! "ip" = Some JNull
    ∧ rec !! "city" = Some JNull
    ∧ rec !! "country" = Some JNull
    ∧ rec !! "latitude" = Some JNull.
Proof.
  destruct (ip_geolocation_absent_fields_none None
              (start (env_online (http_ok (JObject payload_lon_only)))) payload_lon_only)
    as (rec & w' & Hrun & Hip & Hcity & _ & _ & Hcountry & Hlat & _).
  { eexists. split; reflexivity. }
  exists rec, w'. split; [exact Hrun|].
  split; [apply Hip; vm_compute; reflexivity|].
  split; [apply Hcity; vm_compute; reflexivity|].
  split; [apply Hcountry; vm_compute; reflexivity|].
  apply Hlat; vm_compute; reflexivity.
Defined.

(** Latitude 0 and a longitude that is a string: both pass the
    validation and are sent upstream as they are. *)
Lemma reverse_geocode_validation_iff_null_witness :
  ¬ missing body_zero_and_text "latitude" ∧ ¬ missing body_zero_and_text "longitude"
  ∧ ∃ resp w',
      app.reverse_geocode (JObject body_zero_and_text)
        (start (env_online (http_ok (JObject sample_address))))
      = (Ok resp, w')
      ∧ resp_status resp ≠ 400
      ∧ trace w' = [EvHttpGet (app.nominatim_request (JInt 0) (JString "east"))].
Proof.
  assert (Hlat : ¬ missing body_zero_and_text "latitude").
  { intros [H|H]; vm_compute in H; discriminate H. }
  assert (Hlon : ¬ missing body_zero_and_text "longitude").
  { intros [H|H]; vm_compute in H; discriminate H. }
  split; [exact Hlat|]. split; [exact Hlon|].
  destruct (reverse_geocode_validation_iff_null body_zero_and_text
              (start (env_online (http_ok (JObject sample_address)))))
    as (resp & w' & Hrun & Hiff & _ & Hfwd).
  exists resp, w'. split; [exact Hrun|]. split.
  - intros H400. apply Hiff in H400. tauto.
  - destruct (Hfwd Hlat Hlon) as (Htrace & _). exact Htrace.
Defined.

(** The upstream payload [{"longitude": 0.0, "lon": 10.0}]. *)
Lemma ip_geolocation_falsy_falls_back_witness :
  ∃ rec w',
    app.ip_geolocation None (start (env_online (http_ok (JObject payload_zero_longitude))))
    = (Ok rec, w')
    ∧ rec !! "longitude" = Some (JFloat 10).
Proof.
  destruct (ip_geolocation_falsy_falls_back None
              (start (env_online (http_ok (JObject payload_zero_longitude))))
              payload_zero_longitude)
    as (rec & w' & Hrun & Hlon & _).
  { eexists. split; reflexivity. }
  exists rec, w'. split; [exact Hrun|].
  apply (Hlon (JFloat 0)); vm_compute; reflexivity.
Defined.

(** A machine with no route to 8.8.8.8: both scripts raise the
    [OSError] of [connect]. *)
Lemma get_ip_address_scripts_equivalent_witness :
  (lab_01.get_ip_address (start (env_unreachable (inl ConnectionError)))).1
  = Raise (OSError "[Errno 101] Network is unreachable")
  ∧ (lab_01_ip_locate.get_ip_address (start (env_unreachable (inl ConnectionError)))).1
    = Raise (OSError "[Errno 101] Network is unreachable").
Proof.
  destruct (get_ip_address_scripts_equivalent (start (env_unreachable (inl ConnectionError))))
    as (_ & _ & Hraise & _).
  apply Hraise. by eapply probe_connect_fails.
Defined.

(** ** Further runs *)

(** The upstream payload [{"lon": 10.0}] gives longitude 10.0. *)
Example ip_geolocation_lon_only_run :
  ∃ rec w',
    app.ip_geolocation None (start (env_online (http_ok (JObject payload_lon_only))))
    = (Ok rec, w')
    ∧ rec !! "longitude" = Some (JFloat 10).
Proof. eexists _, _. split; vm_compute; reflexivity. Qed.

(** A body that is a JSON array is not answered by the handler at all:
    the exception leaves the view function. *)
Example reverse_geocode_array_body_raises :
  (app.reverse_geocode (JArray []) (start (env_online (inl ReadTimeout)))).1
  = Raise (Exn "AttributeError" "'list' object has no attribute 'get'").
Proof. reflexivity. Qed.

(** A 404 from the upstream service becomes a 500 of the handler. *)
Example reverse_geocode_http_error_run :
  (app.reverse_geocode (JObject sample_coordinates)
     (start (env_online (inr (HttpResponse 404 "Not Found" app.nominatim_url
                                           (inr (JObject sample_address))))))).1
  = Ok (FlaskResponse
          (JObject {[ "error" := JString
            "reverse geocode failed: 404 Client Error: Not Found for url: https://nominatim.openstreetmap.org/reverse" ]})
          500).
Proof. vm_compute; reflexivity. Qed.

(** On a working machine the resolver reports the local address and
    makes the four socket calls. *)
Example get_local_ip_online_run :
  app.get_local_ip (start (env_online (inl ConnectionError)))
  = (Ok "192.168.1.7",
     World (env_online (inl ConnectionError)) (probe_events 3)).
Proof. reflexivity. Qed.

(** * Beyond the claims: the rest of the three files *)

#[local] Hint Unfold app.ipify_request lab_01.ipapi_request
  lab_01_ip_locate.ipapi_request : py_run.

(** ** Shared facts *)

(** Flattens the world after a run into [trace w ++ events]. *)
Ltac flatten_world :=
  unfold record_event; cbn [env trace fst snd]; rewrite <- ?app_assoc; cbn [app].

(** The resolver of [app.py] is the scripts' [get_ip_address] inside a
    [try]. *)
Lemma get_local_ip_as_guard w :
  app.get_local_ip w = try_except lab_01.get_ip_address (λ _, mret "N/A") w.
Proof. reflexivity. Qed.

(** The socket probe leaves the environment alone and appends socket
    events only. *)
Lemma get_ip_address_events w :
  ∃ evs, (lab_01.get_ip_address w).2 = World (env w) (trace w ++ evs)
         ∧ Forall (λ ev, is_socket_event ev = true) evs.
Proof.
  unfold lab_01.get_ip_address.
  destruct (os_socket (env w) AF_INET SOCK_DGRAM) as [e|fd] eqn:Hs;
    [|destruct (os_connect (env w) fd ("8.8.8.8", 80)) as [e|[]] eqn:Hc;
      [|destruct (os_getsockname (env w) fd) as [e|name] eqn:Hn;
        [|destruct (os_close (env w) fd) as [e|[]] eqn:Hx]]].
  all: run; flatten_world; eexists; split; [reflexivity|]; by repeat constructor.
Qed.

Lemma get_local_ip_run w :
  ∃ ip evs, app.get_local_ip w = (Ok ip, World (env w) (trace w ++ evs))
            ∧ Forall (λ ev, is_socket_event ev = true) evs.
Proof.
  destruct (get_ip_address_events w) as (evs & Hw & Hevs).
  rewrite get_local_ip_as_guard, run_try.
  destruct (lab_01.get_ip_address w) as [[ip|e] w']; simpl in Hw; subst w'.
  - by exists ip, evs.
  - by exists "N/A", evs.
Qed.

Lemma get_public_ip_fails w o e :
  net_get (env w) app.ipify_request = o →
  ipapi_failure o e →
  app.get_public_ip w = (Ok (JString "N/A"), record_event (EvHttpGet app.ipify_request) w).
Proof.
  intros Ho Hf. unfold app.get_public_ip.
  destruct Hf as [e|r e Hj|r v Hj Hd]; run; try reflexivity.
  destruct v; try discriminate Hd; run; reflexivity.
Qed.

Lemma get_public_ip_succeeds w o d :
  net_get (env w) app.ipify_request = o →
  ipapi_success o d →
  app.get_public_ip w =
  (Ok (Py.dict_get_default d "ip" (JString "N/A")),
   record_event (EvHttpGet app.ipify_request) w).
Proof.
  intros Ho (r & -> & Hj). unfold app.get_public_ip. run. reflexivity.
Qed.

Lemma get_public_ip_run w :
  ∃ v, app.get_public_ip w = (Ok v, record_event (EvHttpGet app.ipify_request) w).
Proof.
  destruct (ipapi_cases (net_get (env w) app.ipify_request)) as [[e Hf]|[d Hs]].
  - eexists. exact (get_public_ip_fails w _ e eq_refl Hf).
  - eexists. exact (get_public_ip_succeeds w _ d eq_refl Hs).
Qed.

(** The record of a successful [ip_geolocation] call, as one dict. *)
Lemma ip_geolocation_record ip w o d :
  net_get (env w) (app.ipapi_request ip) = o →
  ipapi_success o d →
  app.ip_geolocation ip w =
  (Ok (<["ip" := Py.dict_get d "ip"]> (<["city" := Py.dict_get d "city"]>
       (<["region" := Py.dict_get d "region"]> (<["postal" := Py.dict_get d "postal"]>
       (<["country" := Py.dict_get d "country_name"]>
       (<["latitude" := if Py.truthy (Py.dict_get d "latitude")
                        then Py.dict_get d "latitude" else Py.dict_get d "lat"]>
       (<["longitude" := if Py.truthy (Py.dict_get d "longitude")
                         then Py.dict_get d "longitude" else Py.dict_get d "lon"]>
       (<["raw" := JObject d]> ∅)))))))),
   record_event (EvHttpGet (app.ipapi_request ip)) w).
Proof.
  intros Ho (r & -> & Hj). unfold app.ip_geolocation. run. reflexivity.
Qed.

Lemma ip_geolocation_run ip w :
  ∃ rec, app.ip_geolocation ip w = (Ok rec, record_event (EvHttpGet (app.ipapi_request ip)) w).
Proof.
  destruct (ipapi_cases (net_get (env w) (app.ipapi_request ip))) as [[e Hf]|[d Hs]].
  - eexists. exact (ip_geolocation_fails ip w _ e eq_refl Hf).
  - eexists. exact (ip_geolocation_record ip w _ d eq_refl Hs).
Qed.

Lemma ipapi_exclusive o e payload :
  ipapi_failure o e → ipapi_success o payload → False.
Proof.
  intros Hf (r & -> & Hj).
  inversion Hf as [ | |? v Hv Hd]; subst; try congruence.
  rewrite Hj in Hv. injection Hv as <-. discriminate Hd.
Qed.

(** ** [get_public_ip] *)

(** X1: [get_public_ip] never raises and makes exactly one call, the GET
    to the ipify service with a 5 second timeout; it returns ["N/A"]
    whenever that call fails (no response, a body that does not decode or
    is not an object) and whenever the answer has no ["ip"] key. *)
Theorem get_public_ip_never_raises (w : world) :
  ∃ v,
    app.get_public_ip w = (Ok v, World (env w) (trace w ++ [EvHttpGet app.ipify_request]))
    ∧ rq_timeout app.ipify_request = Some 5
    ∧ (∀ e, ipapi_failure (net_get (env w) app.ipify_request) e → v = JString "N/A")
    ∧ (∀ d, ipapi_success (net_get (env w) app.ipify_request) d →
            d !! "ip" = None → v = JString "N/A").
Proof.
  destruct (ipapi_cases (net_get (env w) app.ipify_request)) as [[e Hf]|[d Hs]].
  - exists (JString "N/A"). split; [exact (get_public_ip_fails w _ e eq_refl Hf)|].
    split; [reflexivity|]. split; [done|].
    intros d' Hs. destruct (ipapi_exclusive _ _ _ Hf Hs).
  - exists (Py.dict_get_default d "ip" (JString "N/A")).
    split; [exact (get_public_ip_succeeds w _ d eq_refl Hs)|].
    split; [reflexivity|]. split.
    + intros e Hf. destruct (ipapi_exclusive _ _ _ Hf Hs).
    + intros d' (r' & Hr' & Hj') Hnone. destruct Hs as (r & Hr & Hj).
      assert (d' = d) as -> by congruence.
      unfold Py.dict_get_default. by rewrite Hnone.
Qed.

(** X2: when the ipify answer decodes to an object that has an ["ip"]
    key, [get_public_ip] returns the value under that key as it is,
    whatever the HTTP status of the answer and whatever the value: a
    [null] comes back as [None], not as the ["N/A"] sentinel. *)
Theorem get_public_ip_returns_ip_field
    (w : world) (r : http_response) (d : gmap string json) (v : json) :
  net_get (env w) app.ipify_request = inr r →
  json_body r = inr (JObject d) →
  d !! "ip" = Some v →
  (app.get_public_ip w).1 = Ok v.
Proof.
  intros Hr Hj Hv.
  rewrite (get_public_ip_succeeds w _ d eq_refl); [|by exists r].
  unfold Py.dict_get_default. by rewrite Hv.
Qed.

(** ** [ip_geolocation] *)

(** X3: [ip_geolocation] never raises, and whatever the outcome it makes
    exactly one call: the GET to ipapi.co with a 6 second timeout, to
    the address-less URL when no IP is given and to the URL that embeds
    the IP otherwise. *)
Theorem ip_geolocation_never_raises (ip : option string) (w : world) :
  ∃ rec u,
    app.ip_geolocation ip w
    = (Ok rec, World (env w) (trace w ++ [EvHttpGet (HttpRequest u None None (Some 6))]))
    ∧ u = match ip with
          | None => "https://ipapi.co/json/"
          | Some a => "https://ipapi.co/" +:+ a +:+ "/json/"
          end.
Proof.
  destruct (ip_geolocation_run ip w) as [rec Hrun].
  exists rec, (app.ipapi_url ip). split; [exact Hrun|]. by destruct ip.
Qed.

(** X4: the dict that [ip_geolocation] returns has an ["error"] key
    exactly when the call failed; a payload that itself carries an
    ["error"] key, as the service sends when it refuses, shows it under
    ["raw"] only. *)
Theorem ip_geolocation_error_key_iff_failure (ip : option string) (w : world) :
  ∃ rec w',
    app.ip_geolocation ip w = (Ok rec, w')
    ∧ (is_Some (rec !! "error")
       ↔ ∃ e, ipapi_failure (net_get (env w) (app.ipapi_request ip)) e)
    ∧ (∀ d, ipapi_success (net_get (env w) (app.ipapi_request ip)) d →
            rec !! "error" = None ∧ rec !! "raw" = Some (JObject d)).
Proof.
  destruct (ipapi_cases (net_get (env w) (app.ipapi_request ip))) as [[e Hf]|[d Hs]].
  - eexists _, _. split; [exact (ip_geolocation_fails ip w _ e eq_refl Hf)|]. split.
    + split; [eauto|]. intros _. rewrite lookup_singleton_eq. eauto.
    + intros d Hs. destruct (ipapi_exclusive _ _ _ Hf Hs).
  - eexists _, _. split; [exact (ip_geolocation_record ip w _ d eq_refl Hs)|]. split.
    + split.
      * intros [v Hv]. by simplify_map_eq.
      * intros [e Hf]. destruct (ipapi_exclusive _ _ _ Hf Hs).
    + intros d' (r' & Hr' & Hj'). destruct Hs as (r & Hr & Hj).
      assert (d' = d) as -> by congruence.
      split; by simplify_map_eq.
Qed.

(** X5: [ip_geolocation] does not look at the HTTP status: two answers
    with the same decoded body give the same result, so an error status
    that comes with a JSON object is reported as a normal record. *)
Theorem ip_geolocation_ignores_status
    (ip : option string) (w1 w2 : world) (r1 r2 : http_response) :
  net_get (env w1) (app.ipapi_request ip) = inr r1 →
  net_get (env w2) (app.ipapi_request ip) = inr r2 →
  json_body r1 = json_body r2 →
  (app.ip_geolocation ip w1).1 = (app.ip_geolocation ip w2).1.
Proof.
  intros H1 H2 Hj.
  destruct (ipapi_cases (inr r1)) as [[e Hf]|[d (r & Hr & Hd)]].
  - assert (Hf2 : ipapi_failure (inr r2) e).
    { inversion Hf as [ |? ? Hb|? v Hb Hd]; subst.
      - apply ipapi_bad_json. congruence.
      - apply ipapi_bad_shape; [congruence|done]. }
    rewrite (ip_geolocation_fails ip w1 _ e H1 Hf).
    by rewrite (ip_geolocation_fails ip w2 _ e H2 Hf2).
  - injection Hr as <-.
    rewrite (ip_geolocation_record ip w1 (inr r1) d H1); [|by exists r1].
    rewrite (ip_geolocation_record ip w2 (inr r2) d H2); [done|].
    exists r2. split; [done|congruence].
Qed.

(** X6: the record of a successful [ip_geolocation] call has exactly the
    eight keys ip, city, region, postal, country, latitude, longitude and
    raw, and ["raw"] holds the decoded payload unchanged. *)
Theorem ip_geolocation_record_shape
    (ip : option string) (w : world) (d : gmap string json) :
  ipapi_success (net_get (env w) (app.ipapi_request ip)) d →
  ∃ rec w',
    app.ip_geolocation ip w = (Ok rec, w')
    ∧ dom rec = list_to_set ("raw" :: record_fields)
    ∧ rec !! "raw" = Some (JObject d).
Proof.
  intros Hs. eexists _, _.
  split; [exact (ip_geolocation_record ip w _ d eq_refl Hs)|]. split.
  - rewrite !dom_insert_L, dom_empty_L. unfold record_fields. set_solver.
  - by simplify_map_eq.
Qed.

(** ** [reverse_geocode] *)

(** X7: for a JSON-object body the handler always answers, with status
    200, 400 or 500: 200 exactly when both coordinates are supplied and
    the upstream call succeeds, 500 exactly when both are supplied and it
    fails; and the body carries an ["error"] key exactly when the status
    is not 200. *)
Theorem reverse_geocode_status_cases (m : gmap string json) (w : world) :
  ∃ body code w',
    app.reverse_geocode (JObject m) w = (Ok (FlaskResponse (JObject body) code), w')
    ∧ (code = 200 ∨ code = 400 ∨ code = 500)
    ∧ (code = 200 ↔
         ¬ missing m "latitude" ∧ ¬ missing m "longitude"
         ∧ ∃ payload, nominatim_success
                        (net_get (env w) (app.nominatim_request
                                            (Py.dict_get m "latitude")
                                            (Py.dict_get m "longitude"))) payload)
    ∧ (code = 500 ↔
         ¬ missing m "latitude" ∧ ¬ missing m "longitude"
         ∧ ∃ e, nominatim_failure
                  (net_get (env w) (app.nominatim_request
                                      (Py.dict_get m "latitude")
                                      (Py.dict_get m "longitude"))) e)
    ∧ (is_Some (body !! "error") ↔ code ≠ 200).
Proof.
  set (lat := Py.dict_get m "latitude"). set (lon := Py.dict_get m "longitude").
  assert (Hlat : missing m "latitude" ↔ lat = JNull).
  { unfold missing. by rewrite <- dict_get_null. }
  assert (Hlon : missing m "longitude" ↔ lon = JNull).
  { unfold missing. by rewrite <- dict_get_null. }
  destruct (Py.is_none lat || Py.is_none lon) eqn:Hv.
  - pose proof Hv as Hnull. apply validation_fails in Hnull. fold lat lon in Hnull.
    eexists _, _, _. split; [exact (reverse_geocode_rejects m w Hv)|]. rewrite Hlat, Hlon.
    split; [auto|]. split; [split; [done|tauto]|]. split; [split; [done|tauto]|].
    rewrite lookup_singleton_eq. split; [done|eauto].
  - assert (Hnn : lat ≠ JNull ∧ lon ≠ JNull).
    { apply orb_false_iff in Hv. by rewrite !is_none_false in Hv. }
    destruct (nominatim_cases (net_get (env w) (app.nominatim_request lat lon)))
      as [[e Hf]|[payload Hs]].
    + eexists _, _, _. split; [exact (reverse_geocode_fails m w _ e Hv eq_refl Hf)|].
      rewrite Hlat, Hlon.
      split; [auto|]. split; [|split].
      * split; [done|]. intros (_ & _ & payload & Hs).
        destruct (nominatim_exclusive _ _ _ Hf Hs).
      * split; [|done]. intros _. destruct Hnn. eauto.
      * rewrite lookup_singleton_eq. split; [done|eauto].
    + eexists _, _, _. split; [exact (reverse_geocode_succeeds m w _ payload Hv eq_refl Hs)|].
      rewrite Hlat, Hlon.
      split; [auto|]. split; [|split].
      * split; [|done]. intros _. destruct Hnn. eauto.
      * split; [done|]. intros (_ & _ & e & Hf).
        destruct (nominatim_exclusive _ _ _ Hf Hs).
      * unfold app.reverse_ok_body. split; [|done].
        intros [v Hv']. by simplify_map_eq.
Qed.

(** X8: in a 200 answer, ["address_details"] is the empty object when
    the upstream payload has no ["address"] key and the payload's value
    otherwise (a [null] included), and ["display_name"] is [None] when
    the payload has none. *)
Theorem reverse_geocode_address_defaults
    (m : gmap string json) (w : world) (payload : gmap string json) :
  ¬ missing m "latitude" → ¬ missing m "longitude" →
  nominatim_success (net_get (env w) (app.nominatim_request
                                        (Py.dict_get m "latitude")
                                        (Py.dict_get m "longitude"))) payload →
  ∃ body w',
    app.reverse_geocode (JObject m) w = (Ok (FlaskResponse (JObject body) 200), w')
    ∧ (payload !! "address" = None → body !! "address_details" = Some (JObject ∅))
    ∧ (∀ v, payload !! "address" = Some v → body !! "address_details" = Some v)
    ∧ (payload !! "display_name" = None → body !! "display_name" = Some JNull)
    ∧ (∀ v, payload !! "display_name" = Some v → body !! "display_name" = Some v).
Proof.
  intros Hlat Hlon Hs.
  assert (Hv : Py.is_none (Py.dict_get m "latitude")
               || Py.is_none (Py.dict_get m "longitude") = false).
  { apply orb_false_iff. rewrite !is_none_false, !dict_get_null. done. }
  eexists _, _. split; [exact (reverse_geocode_succeeds m w _ payload Hv eq_refl Hs)|].
  unfold app.reverse_ok_body, Py.dict_get_default, Py.dict_get.
  repeat split.
  - intros ->. by simplify_map_eq.
  - intros v ->. by simplify_map_eq.
  - intros ->. by simplify_map_eq.
  - intros v ->. by simplify_map_eq.
Qed.

(** X9: a request body that is valid JSON but not an object (a list, a
    string, a number, [null]) is not answered with 400: [data.get]
    raises [AttributeError] before the validation and outside the [try],
    the exception leaves the view function, and nothing is sent
    upstream. *)
Theorem reverse_geocode_non_object_body (v : json) (w : world) :
  (∀ m, v ≠ JObject m) →
  app.reverse_geocode v w
  = (Raise (Exn "AttributeError"
              ("'" +:+ Py.type_name v +:+ "' object has no attribute 'get'")), w)
  ∧ Py.type_name v ≠ "dict".
Proof.
  intros Hv. destruct v; try (split; [reflexivity|discriminate]).
  by destruct (Hv m).
Qed.

(** ** [get_local_ip] *)

(** X10: when the socket was created but [connect] or [getsockname]
    raises, [get_local_ip] returns ["N/A"] without ever calling [close]
    on the socket it opened. *)
Theorem get_local_ip_leaves_socket_open (w : world) (fd : nat) (e : exn) :
  os_socket (env w) AF_INET SOCK_DGRAM = inr fd →
  os_connect (env w) fd ("8.8.8.8", 80) = inl e
  ∨ (os_connect (env w) fd ("8.8.8.8", 80) = inr tt ∧ os_getsockname (env w) fd = inl e) →
  ∃ evs,
    app.get_local_ip w = (Ok "N/A", World (env w) (trace w ++ evs))
    ∧ EvSocket AF_INET SOCK_DGRAM ∈ evs
    ∧ ∀ fd', EvClose fd' ∉ evs.
Proof.
  intros Hs [Hc|[Hc Hn]]; unfold app.get_local_ip; run; flatten_world.
  - eexists. split; [reflexivity|]. split; [apply list_elem_of_here|].
    intros fd'. rewrite !elem_of_cons, elem_of_nil. intuition discriminate.
  - eexists. split; [reflexivity|]. split; [apply list_elem_of_here|].
    intros fd'. rewrite !elem_of_cons, elem_of_nil. intuition discriminate.
Qed.

(** X11: [get_local_ip] is the scripts' [get_ip_address] with its
    failures caught: from every world both make the same socket calls,
    and [get_local_ip] returns the address that [get_ip_address] returns
    and ["N/A"] where [get_ip_address] raises. *)
Theorem get_local_ip_guards_get_ip_address (w : world) :
  (app.get_local_ip w).2 = (lab_01.get_ip_address w).2
  ∧ (app.get_local_ip w).1
    = Ok (match (lab_01.get_ip_address w).1 with Ok ip => ip | Raise _ => "N/A" end).
Proof.
  rewrite get_local_ip_as_guard, run_try.
  by destruct (lab_01.get_ip_address w) as [[ip|e] w'].
Qed.

(** ** [get_physical_address] in the two scripts *)

Lemma lab_01_get_physical_address_fails repr_other w o e :
  net_get (env w) lab_01.ipapi_request = o →
  ipapi_failure o e →
  lab_01.get_physical_address repr_other w
  = (Raise e, record_event (EvHttpGet lab_01.ipapi_request) w).
Proof.
  intros Ho Hf. unfold lab_01.get_physical_address.
  destruct Hf as [e|r e Hj|r v Hj Hd]; run; try reflexivity.
  destruct v; try discriminate Hd; run; reflexivity.
Qed.

Lemma lab_01_ip_locate_get_physical_address_fails repr_other w o e :
  net_get (env w) lab_01_ip_locate.ipapi_request = o →
  ipapi_failure o e →
  lab_01_ip_locate.get_physical_address repr_other w
  = (Raise e, record_event (EvHttpGet lab_01_ip_locate.ipapi_request) w).
Proof.
  intros Ho Hf. unfold lab_01_ip_locate.get_physical_address.
  destruct Hf as [e|r e Hj|r v Hj Hd]; run; try reflexivity.
  destruct v; try discriminate Hd; run; reflexivity.
Qed.

Lemma lab_01_get_physical_address_succeeds repr_other w o d :
  net_get (env w) lab_01.ipapi_request = o →
  ipapi_success o d →
  lab_01.get_physical_address repr_other w
  = (Ok (let str := Py.str repr_other in
         let rest := str (Py.dict_get d "city") +:+ ", " +:+ str (Py.dict_get d "region")
                     +:+ " " +:+ str (Py.dict_get d "postal") +:+ ", "
                     +:+ str (Py.dict_get d "country_name") in
         let street := Py.dict_get_default d "address" (JString "N/A") in
         if Py.eq_str street "N/A" then rest else str street +:+ ", " +:+ rest),
     record_event (EvHttpGet lab_01.ipapi_request) w).
Proof.
  intros Ho (r & -> & Hj). unfold lab_01.get_physical_address. run.
  cbv zeta. by destruct (Py.eq_str _ _).
Qed.

Lemma lab_01_ip_locate_get_physical_address_succeeds repr_other w o d :
  net_get (env w) lab_01_ip_locate.ipapi_request = o →
  ipapi_success o d →
  lab_01_ip_locate.get_physical_address repr_other w
  = (Ok (Py.str repr_other (Py.dict_get d "city") +:+ ", "
         +:+ Py.str repr_other (Py.dict_get d "region") +:+ ", "
         +:+ Py.str repr_other (Py.dict_get d "country_name")),
     record_event (EvHttpGet lab_01_ip_locate.ipapi_request) w).
Proof.
  intros Ho (r & -> & Hj). unfold lab_01_ip_locate.get_physical_address. run.
  reflexivity.
Qed.

(** X12: [get_physical_address], in both scripts, has no [try]: when
    the ipapi call fails (no response, a body that does not decode or is
    not an object) the exception reaches the caller.  The one call it
    makes is a GET to the address-less ipapi URL with no timeout set. *)
Theorem get_physical_address_propagates
    (repr_other : json → string) (w : world) (e : exn) :
  ipapi_failure (net_get (env w) (HttpRequest "https://ipapi.co/json/" None None None)) e →
  lab_01.get_physical_address repr_other w
  = (Raise e, World (env w)
                (trace w ++ [EvHttpGet (HttpRequest "https://ipapi.co/json/" None None None)]))
  ∧ lab_01_ip_locate.get_physical_address repr_other w
    = (Raise e, World (env w)
                  (trace w ++ [EvHttpGet (HttpRequest "https://ipapi.co/json/" None None None)])).
Proof.
  intros Hf. split.
  - exact (lab_01_get_physical_address_fails repr_other w _ e eq_refl Hf).
  - exact (lab_01_ip_locate_get_physical_address_fails repr_other w _ e eq_refl Hf).
Qed.

(** X13: in [lab_01.py] the street is a prefix and nothing more: for a
    payload with an ["address"] entry the result is the text of that
    entry, a comma and a space, followed by what the same payload
    without the entry gives; except that the entry ["N/A"] counts as
    absent and is left out. *)
Theorem lab_01_street_is_a_prefix
    (repr_other : json → string) (w1 w2 : world) (d : gmap string json) (v : json) :
  ipapi_success (net_get (env w1) lab_01.ipapi_request) d →
  ipapi_success (net_get (env w2) lab_01.ipapi_request) (delete "address" d) →
  d !! "address" = Some v →
  ∃ rest,
    (lab_01.get_physical_address repr_other w2).1 = Ok rest
    ∧ (lab_01.get_physical_address repr_other w1).1
      = Ok (if Py.eq_str v "N/A" then rest else Py.str repr_other v +:+ ", " +:+ rest).
Proof.
  intros H1 H2 Hv.
  rewrite (lab_01_get_physical_address_succeeds repr_other w1 _ d eq_refl H1).
  rewrite (lab_01_get_physical_address_succeeds repr_other w2 _ _ eq_refl H2).
  cbv zeta. unfold Py.dict_get_default, Py.dict_get.
  rewrite lookup_delete_eq, !lookup_delete_ne by done. rewrite Hv. simpl.
  eexists. split; reflexivity.
Qed.

(** X14: the two versions of [get_physical_address] make the same call
    and fail together: from every world they leave the same trace, and
    one raises an exception exactly when the other raises it. *)
Theorem get_physical_address_same_call (repr_other : json → string) (w : world) :
  (lab_01.get_physical_address repr_other w).2
  = (lab_01_ip_locate.get_physical_address repr_other w).2
  ∧ ∀ e, (lab_01.get_physical_address repr_other w).1 = Raise e
         ↔ (lab_01_ip_locate.get_physical_address repr_other w).1 = Raise e.
Proof.
  destruct (ipapi_cases (net_get (env w) lab_01.ipapi_request)) as [[e Hf]|[d Hs]].
  - rewrite (lab_01_get_physical_address_fails repr_other w _ e eq_refl Hf).
    rewrite (lab_01_ip_locate_get_physical_address_fails repr_other w _ e eq_refl Hf).
    done.
  - rewrite (lab_01_get_physical_address_succeeds repr_other w _ d eq_refl Hs).
    rewrite (lab_01_ip_locate_get_physical_address_succeeds repr_other w _ d eq_refl Hs).
    split; [done|]. intros e; split; discriminate.
Qed.

(** X15: a field the payload does not have is printed as the word
    [None]: with none of address, city, region, postal and country_name
    present, [lab_01.py] builds ["None, None None, None"] and
    [lab_01_ip_locate.py] builds ["None, None, None"]. *)
Theorem get_physical_address_prints_None
    (repr_other : json → string) (w : world) (d : gmap string json) :
  ipapi_success (net_get (env w) lab_01.ipapi_request) d →
  d !! "address" = None → d !! "city" = None → d !! "region" = None →
  d !! "postal" = None → d !! "country_name" = None →
  (lab_01.get_physical_address repr_other w).1 = Ok "None, None None, None"
  ∧ (lab_01_ip_locate.get_physical_address repr_other w).1 = Ok "None, None, None".
Proof.
  intros Hs Ha Hc Hr Hp Hk.
  rewrite (lab_01_get_physical_address_succeeds repr_other w _ d eq_refl Hs).
  rewrite (lab_01_ip_locate_get_physical_address_succeeds repr_other w _ d eq_refl Hs).
  cbv zeta. unfold Py.dict_get_default, Py.dict_get. rewrite Ha, Hc, Hr, Hp, Hk.
  split; reflexivity.
Qed.

(** ** The scripts as programs *)

Lemma get_ip_address_world w :
  ∃ evs, (lab_01.get_ip_address w).2 = World (env w) (trace w ++ evs)
         ∧ (lab_01_ip_locate.get_ip_address w).2 = World (env w) (trace w ++ evs)
         ∧ Forall (λ ev, is_socket_event ev = true) evs.
Proof.
  destruct (get_ip_address_events w) as (evs & Hw & Hevs). by exists evs.
Qed.

(** X16: when the socket probe raises, both scripts end with that
    exception before anything is printed, and no HTTP request has been
    made: the events of the run are socket events only. *)
Theorem scripts_abort_before_http (repr_other : json → string) (w : world) (e : exn) :
  probe (env w) (inl e) →
  ∃ evs,
    lab_01.main repr_other w = ScriptOutcome [] (Some e) (World (env w) (trace w ++ evs))
    ∧ lab_01_ip_locate.main repr_other w
      = ScriptOutcome [] (Some e) (World (env w) (trace w ++ evs))
    ∧ Forall (λ ev, is_socket_event ev = true) evs.
Proof.
  intros Hp.
  destruct (get_ip_address_world w) as (evs & Hw1 & Hw2 & Hevs).
  pose proof (lab_01_get_ip_address_probe w _ Hp) as H1.
  pose proof (lab_01_ip_locate_get_ip_address_probe w _ Hp) as H2.
  exists evs. unfold lab_01.main, lab_01_ip_locate.main.
  destruct (lab_01.get_ip_address w) as [res1 w1].
  destruct (lab_01_ip_locate.get_ip_address w) as [res2 w2].
  simpl in *. subst. done.
Qed.

(** X17: when the socket probe succeeds with address [ip], both scripts
    print the line ["IP Address: " ++ ip] first.  If the ipapi call then
    fails, that line is all the output and the exception ends the
    script; if it succeeds, a second line starting with
    ["Physical Address: "] follows and the script ends normally. *)
Theorem scripts_print_ip_first (repr_other : json → string) (w : world) (ip : string) :
  probe (env w) (inr ip) →
  (∀ e, ipapi_failure (net_get (env w) lab_01.ipapi_request) e →
        stdout (lab_01.main repr_other w) = ["IP Address: " +:+ ip]
        ∧ uncaught (lab_01.main repr_other w) = Some e
        ∧ stdout (lab_01_ip_locate.main repr_other w) = ["IP Address: " +:+ ip]
        ∧ uncaught (lab_01_ip_locate.main repr_other w) = Some e)
  ∧ (∀ d, ipapi_success (net_get (env w) lab_01.ipapi_request) d →
          ∃ a b,
            stdout (lab_01.main repr_other w)
            = ["IP Address: " +:+ ip; "Physical Address: " +:+ a]
            ∧ uncaught (lab_01.main repr_other w) = None
            ∧ stdout (lab_01_ip_locate.main repr_other w)
              = ["IP Address: " +:+ ip; "Physical Address: " +:+ b]
            ∧ uncaught (lab_01_ip_locate.main repr_other w) = None).
Proof.
  intros Hp.
  destruct (get_ip_address_world w) as (evs & Hw1 & Hw2 & Hevs).
  pose proof (lab_01_get_ip_address_probe w _ Hp) as H1.
  pose proof (lab_01_ip_locate_get_ip_address_probe w _ Hp) as H2.
  unfold lab_01.main, lab_01_ip_locate.main.
  destruct (lab_01.get_ip_address w) as [res1 w1].
  destruct (lab_01_ip_locate.get_ip_address w) as [res2 w2].
  simpl in Hw1, Hw2, H1, H2. subst. split.
  - intros e Hf.
    rewrite (lab_01_get_physical_address_fails repr_other (World (env w) (trace w ++ evs)) _ e eq_refl Hf).
    rewrite (lab_01_ip_locate_get_physical_address_fails repr_other (World (env w) (trace w ++ evs)) _ e eq_refl Hf).
    done.
  - intros d Hs.
    rewrite (lab_01_get_physical_address_succeeds repr_other (World (env w) (trace w ++ evs)) _ d eq_refl Hs).
    rewrite (lab_01_ip_locate_get_physical_address_succeeds repr_other (World (env w) (trace w ++ evs)) _ d eq_refl Hs).
    eexists _, _. done.
Qed.

(** ** [index] *)

Lemma index_run {page : Type} (repr_other : json → string)
    (render : gmap string json → page) (w : world) :
  ∃ ip evs v rec,
    app.get_local_ip w = (Ok ip, World (env w) (trace w ++ evs))
    ∧ Forall (λ ev, is_socket_event ev = true) evs
    ∧ app.get_public_ip (World (env w) (trace w ++ evs))
      = (Ok v, World (env w) (trace w ++ evs ++ [EvHttpGet app.ipify_request]))
    ∧ app.ip_geolocation (app.geolocation_argument repr_other v)
        (World (env w) (trace w ++ evs ++ [EvHttpGet app.ipify_request]))
      = (Ok rec,
         World (env w)
           (trace w ++ evs ++
            [EvHttpGet app.ipify_request;
             EvHttpGet (app.ipapi_request (app.geolocation_argument repr_other v))]))
    ∧ app.index repr_other render w
      = (Ok (render (<["local_ip" := JString ip]> (<["public_ip" := v]>
                     (<["ip_geolocation" := JObject rec]>
                     (<["note" := JString app.index_note]> ∅))))),
         World (env w)
           (trace w ++ evs ++
            [EvHttpGet app.ipify_request;
             EvHttpGet (app.ipapi_request (app.geolocation_argument repr_other v))])).
Proof.
  destruct (get_local_ip_run w) as (ip & evs & H1 & Hevs).
  destruct (get_public_ip_run (World (env w) (trace w ++ evs))) as (v & H2).
  destruct (ip_geolocation_run (app.geolocation_argument repr_other v)
              (record_event (EvHttpGet app.ipify_request) (World (env w) (trace w ++ evs))))
    as (rec & H3).
  assert (E2 : record_event (EvHttpGet app.ipify_request) (World (env w) (trace w ++ evs))
               = World (env w) (trace w ++ evs ++ [EvHttpGet app.ipify_request])).
  { unfold record_event; simpl. by rewrite <- app_assoc. }
  assert (E3 : record_event
                 (EvHttpGet (app.ipapi_request (app.geolocation_argument repr_other v)))
                 (World (env w) (trace w ++ evs ++ [EvHttpGet app.ipify_request]))
               = World (env w)
                   (trace w ++ evs ++
                    [EvHttpGet app.ipify_request;
                     EvHttpGet (app.ipapi_request (app.geolocation_argument repr_other v))])).
  { unfold record_event; simpl. by rewrite <- !app_assoc. }
  rewrite E2 in H2, H3. rewrite E3 in H3.
  exists ip, evs, v, rec. split; [exact H1|]. split; [exact Hevs|].
  split; [exact H2|]. split; [exact H3|].
  unfold app.index. rewrite run_bind, H1, run_bind, H2, run_bind, H3. reflexivity.
Qed.

(** X18: [index] never raises.  In every world it runs the socket probe,
    then asks the ipify service, then asks ipapi, in that order and
    making exactly these two HTTP requests; the summary it renders has
    the four keys local_ip, public_ip, ip_geolocation and note, and its
    ["local_ip"] is what [get_local_ip] gives in that world. *)
Theorem index_never_raises {page : Type} (repr_other : json → string)
    (render : gmap string json → page) (w : world) :
  ∃ summary evs arg ip,
    app.index repr_other render w
    = (Ok (render summary),
       World (env w)
         (trace w ++ evs ++
          [EvHttpGet app.ipify_request; EvHttpGet (app.ipapi_request arg)]))
    ∧ Forall (λ ev, is_socket_event ev = true) evs
    ∧ dom summary = {[ "local_ip"; "public_ip"; "ip_geolocation"; "note" ]}
    ∧ (app.get_local_ip w).1 = Ok ip
    ∧ summary !! "local_ip" = Some (JString ip)
    ∧ summary !! "note" = Some (JString app.index_note).
Proof.
  destruct (index_run repr_other render w) as (ip & evs & v & rec & H1 & Hevs & _ & _ & Hrun).
  eexists _, evs, _, ip. split; [exact Hrun|]. split; [exact Hevs|].
  split; [|split; [by rewrite H1|split; by simplify_map_eq]].
  rewrite !dom_insert_L, dom_empty_L. set_solver.
Qed.

(** X19: when the public address is not available, because the ipify
    call failed or its answer has no ["ip"] entry, or a [null] or
    ["N/A"] one, [index] asks ipapi without an address: the second
    request goes to the address-less URL, so that the service locates
    the caller. *)
Theorem index_without_public_ip {page : Type} (repr_other : json → string)
    (render : gmap string json → page) (w : world) :
  (∃ e, ipapi_failure (net_get (env w) app.ipify_request) e)
  ∨ (∃ d, ipapi_success (net_get (env w) app.ipify_request) d
          ∧ (d !! "ip" = None ∨ d !! "ip" = Some JNull
             ∨ d !! "ip" = Some (JString "N/A"))) →
  ∃ summary evs,
    app.index repr_other render w
    = (Ok (render summary),
       World (env w)
         (trace w ++ evs ++
          [EvHttpGet app.ipify_request;
           EvHttpGet (HttpRequest "https://ipapi.co/json/" None None (Some 6))]))
    ∧ (summary !! "public_ip" = Some (JString "N/A")
       ∨ summary !! "public_ip" = Some JNull).
Proof.
  intros Hun.
  destruct (index_run repr_other render w) as (ip & evs & v & rec & _ & _ & H2 & _ & Hrun).
  assert (Hv : v = JString "N/A" ∨ v = JNull).
  { destruct Hun as [[e Hf]|(d & Hs & Hd)].
    - rewrite (get_public_ip_fails (World (env w) (trace w ++ evs)) _ e eq_refl Hf) in H2.
      left. congruence.
    - rewrite (get_public_ip_succeeds (World (env w) (trace w ++ evs)) _ d eq_refl Hs) in H2.
      injection H2 as <-. unfold Py.dict_get_default.
      destruct Hd as [-> | [-> | ->]]; simpl; auto. }
  assert (Harg : app.geolocation_argument repr_other v = None).
  { by destruct Hv as [-> | ->]. }
  rewrite Harg in Hrun.
  eexists _, evs. split; [exact Hrun|].
  destruct Hv as [-> | ->]; [left|right]; by simplify_map_eq.
Qed.

(** X20: when the ipify answer carries a string address other than
    ["N/A"], [index] shows it as ["public_ip"] and asks ipapi about that
    very address: the second request goes to the URL that embeds it. *)
Theorem index_uses_public_ip {page : Type} (repr_other : json → string)
    (render : gmap string json → page) (w : world) (d : gmap string json) (a : string) :
  ipapi_success (net_get (env w) app.ipify_request) d →
  d !! "ip" = Some (JString a) →
  a ≠ "N/A" →
  ∃ summary evs,
    app.index repr_other render w
    = (Ok (render summary),
       World (env w)
         (trace w ++ evs ++
          [EvHttpGet app.ipify_request;
           EvHttpGet (HttpRequest ("https://ipapi.co/" +:+ a +:+ "/json/")
                                  None None (Some 6))]))
    ∧ summary !! "public_ip" = Some (JString a).
Proof.
  intros Hs Hd Ha.
  destruct (index_run repr_other render w) as (ip & evs & v & rec & _ & _ & H2 & _ & Hrun).
  rewrite (get_public_ip_succeeds (World (env w) (trace w ++ evs)) _ d eq_refl Hs) in H2.
  injection H2 as <-. unfold Py.dict_get_default in Hrun. rewrite Hd in Hrun. simpl in Hrun.
  assert (Harg : app.geolocation_argument repr_other (JString a) = Some a).
  { unfold app.geolocation_argument, Py.eq_str.
    destruct (String.eqb_spec a "N/A") as [->|_]; [done|reflexivity]. }
  rewrite Harg in Hrun.
  eexists _, evs. split; [exact Hrun|]. by simplify_map_eq.
Qed.

(** ** The same on concrete runs *)

Lemma get_public_ip_never_raises_witness :
  ∃ v, (app.get_public_ip (start (env_by_url answer_no_ipify))).1 = Ok v
       ∧ v = JString "N/A".
Proof.
  destruct (get_public_ip_never_raises (start (env_by_url answer_no_ipify)))
    as (v & Hrun & _ & Hfail & _).
  exists v. split; [by rewrite Hrun|].
  apply (Hfail ConnectionError). exact (ipapi_no_response ConnectionError).
Defined.

(** An answer [{"ip": null}] with status 500. *)
Lemma get_public_ip_returns_ip_field_witness :
  (app.get_public_ip
     (start (env_online (inr (HttpResponse 500 "Internal Server Error" ""
                                           (inr (JObject {[ "ip" := JNull ]}))))))).1
  = Ok JNull.
Proof.
  apply (get_public_ip_returns_ip_field
           (start (env_online (inr (HttpResponse 500 "Internal Server Error" ""
                                                 (inr (JObject {[ "ip" := JNull ]}))))))
           (HttpResponse 500 "Internal Server Error" "" (inr (JObject {[ "ip" := JNull ]})))
           {[ "ip" := JNull ]} JNull).
  - reflexivity.
  - reflexivity.
  - vm_compute; reflexivity.
Defined.

Lemma ip_geolocation_never_raises_witness :
  ∃ rec w',
    app.ip_geolocation (Some "203.0.113.9") (start (env_online (inl ConnectionError)))
    = (Ok rec, w')
    ∧ trace w' = [EvHttpGet (HttpRequest "https://ipapi.co/203.0.113.9/json/"
                                         None None (Some 6))].
Proof.
  destruct (ip_geolocation_never_raises (Some "203.0.113.9")
              (start (env_online (inl ConnectionError)))) as (rec & u & Hrun & ->).
  eexists _, _. split; [exact Hrun|]. reflexivity.
Defined.

(** The refusal that ipapi sends with an ["error"] entry of its own. *)
Lemma ip_geolocation_error_key_iff_failure_witness :
  ∃ rec w',
    app.ip_geolocation None
      (start (env_online (http_ok (JObject {[ "error" := JBool true ]}))))
    = (Ok rec, w')
    ∧ rec !! "error" = None
    ∧ rec !! "raw" = Some (JObject {[ "error" := JBool true ]}).
Proof.
  destruct (ip_geolocation_error_key_iff_failure None
              (start (env_online (http_ok (JObject {[ "error" := JBool true ]})))))
    as (rec & w' & Hrun & _ & Hok).
  exists rec, w'. split; [exact Hrun|].
  apply Hok. eexists. split; reflexivity.
Defined.

(** The same payload with status 429 and with status 200. *)
Lemma ip_geolocation_ignores_status_witness :
  (app.ip_geolocation None
     (start (env_online (inr (HttpResponse 429 "Too Many Requests" ""
                                           (inr (JObject payload_lon_only))))))).1
  = (app.ip_geolocation None (start (env_online (http_ok (JObject payload_lon_only))))).1.
Proof.
  apply (ip_geolocation_ignores_status None _ _
           (HttpResponse 429 "Too Many Requests" "" (inr (JObject payload_lon_only)))
           (HttpResponse 200 "OK" "" (inr (JObject payload_lon_only))));
    reflexivity.
Defined.

Lemma ip_geolocation_record_shape_witness :
  ∃ rec w',
    app.ip_geolocation None (start (env_online (http_ok (JObject payload_equator))))
    = (Ok rec, w')
    ∧ dom rec = list_to_set ("raw" :: record_fields)
    ∧ rec !! "raw" = Some (JObject payload_equator).
Proof.
  apply (ip_geolocation_record_shape None
           (start (env_online (http_ok (JObject payload_equator)))) payload_equator).
  eexists. split; reflexivity.
Defined.

Lemma reverse_geocode_status_cases_witness :
  ∃ body code w',
    app.reverse_geocode (JObject sample_coordinates) (start (env_online (inl ReadTimeout)))
    = (Ok (FlaskResponse (JObject body) code), w')
    ∧ code = 500.
Proof.
  destruct (reverse_geocode_status_cases sample_coordinates
              (start (env_online (inl ReadTimeout))))
    as (body & code & w' & Hrun & _ & _ & H500 & _).
  exists body, code, w'. split; [exact Hrun|].
  apply H500. split; [|split].
  - intros [H|H]; vm_compute in H; discriminate H.
  - intros [H|H]; vm_compute in H; discriminate H.
  - exists ReadTimeout. exact (nominatim_no_response ReadTimeout).
Defined.

(** The answer of the service for a point it cannot resolve. *)
Lemma reverse_geocode_address_defaults_witness :
  ∃ body w',
    app.reverse_geocode (JObject sample_coordinates)
      (start (env_online (http_ok (JObject {[ "error" := JString "Unable to geocode" ]}))))
    = (Ok (FlaskResponse (JObject body) 200), w')
    ∧ body !! "address_details" = Some (JObject ∅)
    ∧ body !! "display_name" = Some JNull.
Proof.
  destruct (reverse_geocode_address_defaults sample_coordinates
              (start (env_online (http_ok (JObject {[ "error" := JString "Unable to geocode" ]}))))
              {[ "error" := JString "Unable to geocode" ]})
    as (body & w' & Hrun & Haddr & _ & Hname & _).
  - intros [H|H]; vm_compute in H; discriminate H.
  - intros [H|H]; vm_compute in H; discriminate H.
  - eexists. split; [reflexivity|]. split; reflexivity.
  - exists body, w'. split; [exact Hrun|].
    split; [apply Haddr|apply Hname]; vm_compute; reflexivity.
Defined.

Lemma reverse_geocode_non_object_body_witness :
  app.reverse_geocode (JString "33.5,-118.25") (start (env_online (inl ReadTimeout)))
  = (Raise (Exn "AttributeError" "'str' object has no attribute 'get'"),
     start (env_online (inl ReadTimeout))).
Proof.
  apply (reverse_geocode_non_object_body (JString "33.5,-118.25")
           (start (env_online (inl ReadTimeout)))).
  discriminate.
Defined.

Lemma get_local_ip_leaves_socket_open_witness :
  ∃ evs,
    app.get_local_ip (start (env_unreachable (inl ConnectionError)))
    = (Ok "N/A", World (env_unreachable (inl ConnectionError)) evs)
    ∧ EvSocket AF_INET SOCK_DGRAM ∈ evs
    ∧ ∀ fd', EvClose fd' ∉ evs.
Proof.
  apply (get_local_ip_leaves_socket_open (start (env_unreachable (inl ConnectionError)))
           3%nat (OSError "[Errno 101] Network is unreachable")).
  - reflexivity.
  - left. reflexivity.
Defined.

Lemma get_local_ip_guards_get_ip_address_witness :
  (app.get_local_ip (start (env_no_socket (inl ConnectionError)))).1 = Ok "N/A"
  ∧ (lab_01.get_ip_address (start (env_no_socket (inl ConnectionError)))).1
    = Raise (OSError "[Errno 24] Too many open files").
Proof.
  destruct (get_local_ip_guards_get_ip_address (start (env_no_socket (inl ConnectionError))))
    as (_ & Hres).
  split; [exact Hres|reflexivity].
Defined.

Lemma get_physical_address_propagates_witness :
  (lab_01.get_physical_address repr_placeholder (start (env_online (inl ConnectionError)))).1
  = Raise ConnectionError
  ∧ (lab_01_ip_locate.get_physical_address repr_placeholder
       (start (env_online (inl ConnectionError)))).1
    = Raise ConnectionError.
Proof.
  destruct (get_physical_address_propagates repr_placeholder
              (start (env_online (inl ConnectionError))) ConnectionError) as (H1 & H2).
  - exact (ipapi_no_response ConnectionError).
  - rewrite H1, H2. split; reflexivity.
Defined.

Lemma lab_01_street_is_a_prefix_witness :
  ∃ rest,
    (lab_01.get_physical_address repr_placeholder
       (start (env_online (http_ok (JObject (delete "address" payload_full_address)))))).1
    = Ok rest
    ∧ (lab_01.get_physical_address repr_placeholder
         (start (env_online (http_ok (JObject payload_full_address))))).1
      = Ok ("1250 Bellflower Blvd" +:+ ", " +:+ rest).
Proof.
  apply (lab_01_street_is_a_prefix repr_placeholder
           (start (env_online (http_ok (JObject payload_full_address))))
           (start (env_online (http_ok (JObject (delete "address" payload_full_address)))))
           payload_full_address (JString "1250 Bellflower Blvd")).
  - eexists. split; reflexivity.
  - eexists. split; reflexivity.
  - vm_compute; reflexivity.
Defined.

Lemma get_physical_address_same_call_witness :
  (lab_01.get_physical_address repr_placeholder
     (start (env_online (http_ok (JObject payload_full_address))))).2
  = (lab_01_ip_locate.get_physical_address repr_placeholder
       (start (env_online (http_ok (JObject payload_full_address))))).2.
Proof.
  exact (proj1 (get_physical_address_same_call repr_placeholder
                  (start (env_online (http_ok (JObject payload_full_address)))))).
Defined.

Lemma get_physical_address_prints_None_witness :
  (lab_01.get_physical_address repr_placeholder
     (start (env_online (http_ok (JObject payload_lon_only))))).1
  = Ok "None, None None, None"
  ∧ (lab_01_ip_locate.get_physical_address repr_placeholder
       (start (env_online (http_ok (JObject payload_lon_only))))).1
    = Ok "None, None, None".
Proof.
  apply (get_physical_address_prints_None repr_placeholder
           (start (env_online (http_ok (JObject payload_lon_only)))) payload_lon_only).
  - eexists. split; reflexivity.
  - vm_compute; reflexivity.
  - vm_compute; reflexivity.
  - vm_compute; reflexivity.
  - vm_compute; reflexivity.
  - vm_compute; reflexivity.
Defined.

Lemma scripts_abort_before_http_witness :
  ∃ evs,
    lab_01.main repr_placeholder (start (env_no_socket (http_ok (JObject payload_full_address))))
    = ScriptOutcome [] (Some (OSError "[Errno 24] Too many open files"))
        (World (env_no_socket (http_ok (JObject payload_full_address))) evs)
    ∧ Forall (λ ev, is_socket_event ev = true) evs.
Proof.
  destruct (scripts_abort_before_http repr_placeholder
              (start (env_no_socket (http_ok (JObject payload_full_address))))
              (OSError "[Errno 24] Too many open files"))
    as (evs & H1 & _ & Hevs).
  - by apply probe_socket_fails.
  - exists evs. split; [exact H1|exact Hevs].
Defined.

Lemma scripts_print_ip_first_witness :
  stdout (lab_01.main repr_placeholder (start (env_online (inl ConnectionError))))
  = ["IP Address: 192.168.1.7"]
  ∧ uncaught (lab_01.main repr_placeholder (start (env_online (inl ConnectionError))))
    = Some ConnectionError.
Proof.
  destruct (scripts_print_ip_first repr_placeholder
              (start (env_online (inl ConnectionError))) "192.168.1.7") as (Hfail & _).
  - exact (probe_done (env_online (inl ConnectionError)) 3%nat ("192.168.1.7", 54321)
             eq_refl eq_refl eq_refl eq_refl).
  - destruct (Hfail ConnectionError (ipapi_no_response ConnectionError))
      as (H1 & H2 & _).
    split; [exact H1|exact H2].
Defined.

Lemma index_never_raises_witness :
  ∃ summary w',
    app.index repr_placeholder (λ s, s) (start (env_by_url answer_both)) = (Ok summary, w')
    ∧ summary !! "local_ip" = Some (JString "192.168.1.7").
Proof.
  destruct (index_never_raises repr_placeholder (λ s, s) (start (env_by_url answer_both)))
    as (summary & evs & arg & ip & Hrun & _ & _ & Hip & Hlocal & _).
  eexists _, _. split; [exact Hrun|].
  rewrite Hlocal. f_equal. f_equal.
  assert (Ok ip = Ok "192.168.1.7") as [= ->] by (rewrite <- Hip; reflexivity).
  reflexivity.
Defined.

(** The ipify service is down. *)
Lemma index_without_public_ip_witness :
  ∃ summary evs,
    app.index repr_placeholder (λ s, s) (start (env_by_url answer_no_ipify))
    = (Ok summary,
       World (env_by_url answer_no_ipify)
         (evs ++ [EvHttpGet app.ipify_request;
                  EvHttpGet (HttpRequest "https://ipapi.co/json/" None None (Some 6))])).
Proof.
  destruct (index_without_public_ip repr_placeholder (λ s, s)
              (start (env_by_url answer_no_ipify))) as (summary & evs & Hrun & _).
  - left. exists ConnectionError. exact (ipapi_no_response ConnectionError).
  - exists summary, evs. exact Hrun.
Defined.

Lemma index_uses_public_ip_witness :
  ∃ summary evs,
    app.index repr_placeholder (λ s, s) (start (env_by_url answer_both))
    = (Ok summary,
       World (env_by_url answer_both)
         (evs ++ [EvHttpGet app.ipify_request;
                  EvHttpGet (HttpRequest "https://ipapi.co/203.0.113.9/json/"
                                         None None (Some 6))]))
    ∧ summary !! "public_ip" = Some (JString "203.0.113.9").
Proof.
  apply (index_uses_public_ip repr_placeholder (λ s, s) (start (env_by_url answer_both))
           {[ "ip" := JString "203.0.113.9" ]} "203.0.113.9").
  - eexists. split; reflexivity.
  - vm_compute; reflexivity.
  - discriminate.
Defined.
